(** * The stance dataset loader of [transformer.ipynb]

    A shallow embedding of the two functions of the notebook's data loader,
    [_stance] (read, clean, filter by topic, encode the labels) and [stance]
    (load the training and the test file, split the training data into a
    training and a validation part), together with the properties of the
    loader that the design document states.

    What is outside the notebook is kept at its interface:
    - [pd.read_csv] is the file store [files], which maps a path to the
      parsed frame (or to nothing, for a file that does not exist);
    - a [DataFrame] is a finite map from column names to columns of cells;
    - [numpy]'s [RandomState(seed).permutation(n)] is a variable of the
      section on the split, with the one property the library documents:
      it returns a permutation of [0 .. n-1].
    The index arithmetic and the slicing of [train_test_split] are written
    out. *)

From Stdlib Require Import QArith Qround.
From stdpp Require Import gmap strings list fin_maps sorting.

Local Open Scope string_scope.
Local Open Scope Z_scope.
Local Open Scope nat_scope.
Local Open Scope list_scope.
Local Open Scope stdpp_scope.

(** ** Cells, exceptions and the result of a call *)

#[global] Instance Q_eq_dec : EqDecision Q.
Proof. solve_decision. Defined.

(** A cell of a parsed frame. [pd.read_csv] is called without [dtype], so
    the parser chooses the type of each column: a cell is a string, or a
    missing value ([NaN], what the parser gives for an empty field), or, in a
    column whose fields all read as such, an integer, a float (given here by
    a fraction) or a boolean. *)
Inductive cell : Type :=
  | Str (s : string)
  | NaN
  | Int (z : Z)
  | Float (q : Q)
  | Bool (b : bool).

#[global] Instance cell_eq_dec : EqDecision cell.
Proof. solve_decision. Defined.

(** The Python exceptions the loader can end with. *)
Inductive error : Type :=
  | FileNotFoundError (path : string)
  | KeyError (key : cell)
  | AttributeError (name : string)
  | TypeError
  | NameError (name : string)
  | ValueError
  | IndexError.

#[global] Instance error_eq_dec : EqDecision error.
Proof. solve_decision. Defined.

Inductive result (A : Type) : Type :=
  | Ok (a : A)
  | Err (e : error).
Arguments Ok {A} a.
Arguments Err {A} e.

#[global] Instance result_ret : MRet result := fun _ a => Ok a.
#[global] Instance result_bind : MBind result := fun _ _ f m =>
  match m with
  | Ok a => f a
  | Err e => Err e
  end.

Definition is_Ok {A} (r : result A) : Prop := exists a, r = Ok a.

(** ** Strings *)

Definition ord (i : Ascii.ascii) : nat := Ascii.nat_of_ascii i.

(** [sep.join(parts)] *)
Fixpoint join (sep : string) (parts : list string) : string :=
  match parts with
  | [] => ""
  | [p] => p
  | p :: ps => p +:+ sep +:+ join sep ps
  end.

(** Iterating over a string gives its characters, each a string of length
    one. *)
Definition iter_str (text : string) : list Ascii.ascii :=
  String.list_ascii_of_string text.

Definition chr_str (i : Ascii.ascii) : string := String i "".

(** [clean_ascii]: [''.join(i for i in text if ord(i) < 128)] *)
Definition clean_ascii (text : string) : string :=
  join "" (chr_str <$> filter (fun i => ord i < 128) (iter_str text)).

(** ** Frames *)

Abbreviation Series := (list cell).
Abbreviation DataFrame := (gmap string (list cell)).

(** [df[name]] *)
Definition getitem (df : DataFrame) (name : string) : result Series :=
  match df !! name with
  | Some col => Ok col
  | None => Err (KeyError (Str name))
  end.

(** [df.name] *)
Definition getattr (df : DataFrame) (name : string) : result Series :=
  match df !! name with
  | Some col => Ok col
  | None => Err (AttributeError name)
  end.

(** [df[name] = col] *)
Definition setitem (df : DataFrame) (name : string) (col : Series) : DataFrame :=
  <[name := col]> df.

(** [col.apply(clean_ascii)]: [clean_ascii] iterates over its argument, which
    only a string allows. *)
Definition apply_clean_ascii (col : Series) : result Series :=
  mapM (fun c => match c with
                 | Str text => Ok (Str (clean_ascii text))
                 | _ => Err TypeError
                 end) col.

(** [col == topic], a boolean column *)
Definition eq_str (col : Series) (topic : string) : list bool :=
  (fun c => bool_decide (c = Str topic)) <$> col.

(** The entries of a column at the rows where the mask holds; in a frame the
    mask and the column have the same length. *)
Fixpoint select (mask : list bool) (col : Series) : Series :=
  match mask, col with
  | b :: mask', c :: col' => if b then c :: select mask' col' else select mask' col'
  | _, _ => []
  end.

(** [df.loc[mask]] *)
Definition loc (df : DataFrame) (mask : list bool) : DataFrame :=
  select mask <$> df.

(** The topic filter of [_stance]:
    [if topic is not None: df = df.loc[df['Target'] == topic]] *)
Definition filter_topic (df : DataFrame) (topic : option string) : result DataFrame :=
  match topic with
  | Some t => tg ← getitem df "Target"; Ok (loc df (eq_str tg t))
  | None => Ok df
  end.

(** ** Labels *)

Definition stances : list string := ["AGAINST"; "FAVOR"; "NONE"; "UNKNOWN"].

Definition enumerate {A} (l : list A) : list (nat * A) := imap (fun i s => (i, s)) l.

(** [{s: i for i, s in enumerate(stances)}] *)
Definition class_nums : gmap string nat :=
  foldl (fun d '(i, s) => <[s := i]> d) ∅ (enumerate stances).

(** [class_nums[s]] *)
Definition class_num (s : cell) : result nat :=
  match s with
  | Str name =>
      match class_nums !! name with
      | Some i => Ok i
      | None => Err (KeyError s)
      end
  | _ => Err (KeyError s)
  end.

(** ** [_stance] *)

Abbreviation FileStore := (gmap string (gmap string (list cell))).

(** [pd.read_csv(path, delimiter='\t', header=0, encoding="latin-1")]. The
    store holds the frame that the parser returns for each file that it
    reads; a path without an entry is a file that does not exist. A file
    that exists and that the parser refuses (an empty file, a row with too
    many fields, a directory) has no place in the store: what is stated
    below of a file is stated of a file that parses, or of a missing one. *)
Definition read_csv (files : FileStore) (path : string) : result DataFrame :=
  match files !! path with
  | Some df => Ok df
  | None => Err (FileNotFoundError path)
  end.

Definition _stance (files : FileStore) (path : string) (topic : option string)
  : result (Series * list nat) :=
  orig ← read_csv files path;
  tweet ← getitem orig "Tweet";
  cleaned ← apply_clean_ascii tweet;
  let orig := setitem orig "Tweet" cleaned in
  let df := orig in
  df ← filter_topic df topic;
  X ← getattr df "Tweet";
  stance_col ← getattr df "Stance";
  Y ← mapM class_num stance_col;
  Ok (X, Y).

(** ** The split: [sklearn.model_selection.train_test_split]

    The library function, for two arrays, a float [test_size], no
    [train_size], an integer [random_state], shuffling and no stratification,
    which is how [stance] calls it. The float product [test_size * n_samples]
    is taken as the exact rational product; for the fraction 0.2 the two have
    the same ceiling at every size below 2^53. *)

Definition ceil (q : Q) : Z := Qceiling q.

(** [np.asarray(a, dtype=np.int32)] on integers: the two's complement value
    on 32 bits. *)
Definition int32 (z : Z) : Z := ((z + 2 ^ 31) mod 2 ^ 32 - 2 ^ 31)%Z.

Definition asarray_int32 (a : list nat) : list Z :=
  (fun i => int32 (Z.of_nat i)) <$> a.

(** Fancy indexing [a[indices]]. *)
Definition safe_indexing {A} (a : list A) (indices : list nat) : result (list A) :=
  mapM (fun i => match a !! i with
                 | Some x => Ok x
                 | None => Err IndexError
                 end) indices.

(** [RandomState(seed)] accepts the seeds of 32 bits. *)
Definition check_random_state (seed : Z) : result Z :=
  if bool_decide (0 ≤ seed < 2 ^ 32)%Z then Ok seed else Err ValueError.

(** The globals of the notebook that [stance] reads, and the files. *)
Record env : Type := {
  seed : option Z;
  files : gmap string (gmap string (list cell))
}.

(** [Path(data_dir) / name], the two parts joined as they are given.
    [pathlib] also drops a leading [./] and a final [/] of the directory,
    which changes the name under which the store is asked for the file and
    nothing else. *)
Definition path_div (data_dir name : string) : string :=
  data_dir +:+ "/" +:+ name.

Definition trainfile : string := "semeval2016-task6-trainingdata.txt".
Definition testfile : string := "SemEval2016-Task6-subtaskA-testdata.txt".

(** The loop [for t, s in zip(text, sent): xs.append(t); ys.append(s)]. *)
Definition append_loop {A B} (text : list A) (sent : list B) : list A * list B :=
  foldl (fun '(xs, ys) '(t, s) => (xs ++ [t], ys ++ [s])) ([], []) (zip text sent).

Section split.

(** [RandomState(seed).permutation(n)] *)
Variable permutation : Z -> nat -> list nat.

(** Whether a split that leaves the training part empty raises
    [ValueError] (the library does from version 0.22 on) or is returned (as
    before). *)
Variable empty_train_raises : bool.

(** [_validate_shuffle_split]: the sizes [(n_train, n_test)]. *)
Definition _validate_shuffle_split (n_samples : nat) (test_size : Q)
  : result (nat * nat) :=
  if Qle_bool test_size 0 || Qle_bool 1 test_size then Err ValueError else
  let n_test := Z.to_nat (ceil (test_size * inject_Z (Z.of_nat n_samples))) in
  let n_train := n_samples - n_test in
  if empty_train_raises && bool_decide (n_train = 0) then Err ValueError
  else Ok (n_train, n_test).

(** [ShuffleSplit._iter_indices], first split: [(ind_train, ind_test)]. *)
Definition _iter_indices (n_samples n_train n_test : nat) (rng : Z)
  : list nat * list nat :=
  let perm := permutation rng n_samples in
  let ind_test := take n_test perm in
  let ind_train := take n_train (drop n_test perm) in
  (ind_train, ind_test).

Definition train_test_split {A B} (X : list A) (Y : list B)
    (test_size : Q) (random_state : Z)
  : result (list A * list A * list B * list B) :=
  if bool_decide (length X = length Y) then
    let n_samples := length X in
    '(n_train, n_test) ← _validate_shuffle_split n_samples test_size;
    rng ← check_random_state random_state;
    let '(train, test) := _iter_indices n_samples n_train n_test rng in
    X_train ← safe_indexing X train;
    X_test ← safe_indexing X test;
    Y_train ← safe_indexing Y train;
    Y_test ← safe_indexing Y test;
    Ok (X_train, X_test, Y_train, Y_test)
  else Err ValueError.

(** ** [stance]

    The result is the triple [(trX, trY), (vaX, vaY), (teX, )]; the last
    component, a tuple of one array, is given as the array. *)

Definition stance (e : env) (data_dir : string) (topic : option string)
  : result ((Series * list Z) * (Series * list Z) * Series) :=
  let path := data_dir in
  '(X, Y) ← _stance (files e) (path_div path trainfile) topic;
  '(teX, _) ← _stance (files e) (path_div path testfile) topic;
  random_state ← match seed e with
                 | Some s => Ok s
                 | None => Err (NameError "seed")
                 end;
  '(tr_text, va_text, tr_sent, va_sent) ←
    train_test_split X Y (1 # 5) random_state;
  let '(trX, trY) := append_loop tr_text tr_sent in
  let '(vaX, vaY) := append_loop va_text va_sent in
  let trY := asarray_int32 trY in
  let vaY := asarray_int32 vaY in
  Ok ((trX, trY), (vaX, vaY), teX).

End split.

(** ** Sample data

    Frames, files and a generator to run the loader on. *)

Definition frame_of (tweet target stance_col : list cell) : gmap string (list cell) :=
  <["Tweet" := tweet]> (<["Target" := target]> (<["Stance" := stance_col]> ∅)).

(** A generator that meets the contract of the library's: the rotation of
    [0 .. n-1] by the seed, reduced modulo [n + 1]. *)
Definition rot_permutation (seed : Z) (n : nat) : list nat :=
  rotate (Z.to_nat (seed mod (Z.of_nat n + 1))) (seq 0 n).

(** The character of code point 233, an e with an acute accent in latin-1. *)
Definition e_acute : string := String (Ascii.ascii_of_nat 233) "".

(** Ten training rows on one topic, six AGAINST and four FAVOR. *)
Definition ten_train : gmap string (list cell) :=
  frame_of (Str <$> ["t0";"t1";"t2";"t3";"t4";"t5";"t6";"t7";"t8";"t9"])
           (Str <$> replicate 10 "Atheism")
           (Str <$> ["AGAINST";"AGAINST";"AGAINST";"AGAINST";"AGAINST";"AGAINST";
                     "FAVOR";"FAVOR";"FAVOR";"FAVOR"]).

(** Four rows on three topics, with characters outside the 7-bit range in a
    tweet and in a topic name. *)
Definition mixed_frame : gmap string (list cell) :=
  frame_of [Str ("caf" +:+ e_acute +:+ " #SemST"); Str "plain"; Str "third"; Str "last"]
           [Str "Atheism"; Str ("Ath" +:+ e_acute +:+ "isme"); Str "atheism"; Str "Atheism"]
           [Str "FAVOR"; Str "AGAINST"; Str "NONE"; Str "UNKNOWN"].

(** A row whose stance is not one of the four names. *)
Definition maybe_frame : gmap string (list cell) :=
  frame_of [Str "a"; Str "b"] [Str "Atheism"; Str "Atheism"] [Str "FAVOR"; Str "MAYBE"].

(** Test files: with the stance column the data set ships, without a stance
    column, with empty stance fields, and on another topic. *)
Definition one_test : gmap string (list cell) :=
  frame_of [Str "u0"] [Str "Atheism"] [Str "UNKNOWN"].
Definition test_without_stance : gmap string (list cell) :=
  <["Tweet" := [Str "u0"]]> (<["Target" := [Str "Atheism"]]> ∅).
Definition test_empty_stance : gmap string (list cell) :=
  frame_of [Str "u0"] [Str "Atheism"] [NaN].
Definition test_other_topic : gmap string (list cell) :=
  frame_of [Str "u0"] [Str "Hillary Clinton"] [Str "UNKNOWN"].

(** An unrecognized stance beside an empty [Tweet] field, and an
    unrecognized stance on a row of another topic. *)
Definition maybe_empty_tweet_frame : gmap string (list cell) :=
  frame_of [NaN; Str "b"] [Str "Atheism"; Str "Atheism"] [Str "FAVOR"; Str "MAYBE"].
Definition maybe_other_topic_frame : gmap string (list cell) :=
  frame_of [Str "a"; Str "b"] [Str "Atheism"; Str "Hillary Clinton"]
           [Str "FAVOR"; Str "MAYBE"].

(** A training file with an empty [Tweet] field on a row of another topic. *)
Definition empty_tweet_frame : gmap string (list cell) :=
  frame_of [Str "a"; NaN; Str "c"]
           [Str "Atheism"; Str "Hillary Clinton"; Str "Atheism"]
           [Str "FAVOR"; Str "AGAINST"; Str "NONE"].

Definition data_files (train test : gmap string (list cell))
  : gmap string (gmap string (list cell)) :=
  <[path_div "data" trainfile := train]> (<[path_div "data" testfile := test]> ∅).

Definition sample_env (s : option Z) (test : gmap string (list cell)) : env :=
  {| seed := s; files := data_files ten_train test |}.

(** ** The cells that call the loader

    After [(trX, trY), (vaX, vaY), teX = stance(data_dir)], with the global
    [seed] set in the same cell, the notebook prints the head of the training
    part and of the test part. *)

Definition notebook_seed : Z := 3535999445%Z.
Definition notebook_data_dir : string := "./data".

(** [for i, t in enumerate(trX[:10]): print(t, trY[i])]: the printed lines,
    a text and a label each. Indexing the label array past its end raises
    [IndexError]; the slice does not raise. *)
Definition print_first_ten (trX : list cell) (trY : list Z) : result (list (cell * Z)) :=
  mapM (fun '(i, t) => match trY !! i with
                       | Some y => Ok (t, y)
                       | None => Err IndexError
                       end)
       (enumerate (take 10 trX)).

(** [print(teX[0][:5])], where [teX] is the tuple of one array that [stance]
    returns last: the printed texts. *)
Definition print_test_head (teX : list cell) : list cell := take 5 teX.

(** The three cells in a row: the lines of the two prints. *)
Definition run_cells (permutation : Z -> nat -> list nat) (empty_train_raises : bool)
    (fs : gmap string (gmap string (list cell)))
  : result (list (cell * Z) * list cell) :=
  let e := {| seed := Some notebook_seed; files := fs |} in
  '(tr, va, teX) ← stance permutation empty_train_raises e notebook_data_dir None;
  let '(trX, trY) := tr in
  lines ← print_first_ten trX trY;
  Ok (lines, print_test_head teX).

(** ** Notions of the design document

    The definitions below follow the words of the design document; the
    theorems compare them with the code above. *)

(** The numbers of the rows that the topic filter retains, in increasing
    order: every row without a filter, and with a filter the rows whose
    [Target] equals the filter string. *)
Definition kept_rows (df : gmap string (list cell)) (topic : option string) (n : nat)
  : list nat :=
  match topic with
  | None => seq 0 n
  | Some t => filter (fun i => df !! "Target" ≫= (fun tg => tg !! i) = Some (Str t)) (seq 0 n)
  end.

(** The fixed mapping of the stance names to their codes. *)
Inductive label_code : cell -> nat -> Prop :=
  | code_AGAINST : label_code (Str "AGAINST") 0
  | code_FAVOR : label_code (Str "FAVOR") 1
  | code_NONE : label_code (Str "NONE") 2
  | code_UNKNOWN : label_code (Str "UNKNOWN") 3.

(** A cell that holds a string. *)
Definition is_Str (c : cell) : Prop := exists s, c = Str s.

(** A file that parses into a frame with strings for tweets and with the
    [Target] and [Stance] columns, of which no row has the topic [t]. *)
Definition no_row_of (fs : gmap string (gmap string (list cell))) (path t : string)
  : Prop :=
  exists df tweet tg,
    fs !! path = Some df /\
    df !! "Tweet" = Some tweet /\ Forall is_Str tweet /\
    is_Some (df !! "Stance") /\
    df !! "Target" = Some tg /\ Str t ∉ tg.

(** A stance value of the fixed set of four. *)
Definition recognized (s : cell) : Prop := s ∈ Str <$> stances.

(** A text without a character of code point 128 or more. *)
Definition seven_bit (text : string) : Prop :=
  Forall (fun i => ord i < 128) (iter_str text).

(** Python's [round] on an exact rational: to the nearest integer, a tie to
    the even one. *)
Definition py_round (q : Q) : Z :=
  let f := Qfloor q in
  match (q - inject_Z f ?= 1 # 2)%Q with
  | Lt => f
  | Gt => (f + 1)%Z
  | Eq => if Z.even f then f else (f + 1)%Z
  end.

(** A frame whose columns all have [n] rows. *)
Definition frame_rows (df : gmap string (list cell)) (n : nat) : Prop :=
  forall name col, df !! name = Some col -> length col = n.

(** * Properties *)

(** ** The result monad *)

Lemma bind_Ok {A B} (m : result A) (f : A -> result B) (b : B) :
  m ≫= f = Ok b <-> exists a, m = Ok a /\ f a = Ok b.
Proof.
  destruct m as [a|e]; simpl; split.
  - intros H. by exists a.
  - by intros (a' & [= <-] & H).
  - intros [=].
  - by intros (a' & [=] & _).
Qed.

Lemma mapM_Ok {A B} (f : A -> result B) (l : list A) (k : list B) :
  mapM f l = Ok k <-> Forall2 (fun x y => f x = Ok y) l k.
Proof.
  revert k. induction l as [|x l IH]; intros k; simpl.
  - split.
    + intros [= <-]. constructor.
    + by inversion 1.
  - split.
    + intros H. apply bind_Ok in H as (y & Hy & H).
      apply bind_Ok in H as (k' & Hk' & [= <-]).
      constructor; [done|]. by apply IH.
    + inversion 1 as [|? y ? k' Hy Hk']; subst.
      rewrite Hy. simpl. apply IH in Hk'. by rewrite Hk'.
Qed.

Lemma mapM_Ok_length {A B} (f : A -> result B) (l : list A) (k : list B) :
  mapM f l = Ok k -> length k = length l.
Proof. intros H. apply mapM_Ok in H. symmetry. by eapply Forall2_length. Qed.

(** [mapM] stops at the first element on which [f] raises. *)
Lemma mapM_Err_intro {A B} (f : A -> result B) (l1 : list A) x (l2 : list A) e :
  Forall (fun y => is_Ok (f y)) l1 -> f x = Err e ->
  mapM f (l1 ++ x :: l2) = Err e.
Proof.
  intros Hl1 Hx. induction Hl1 as [|y l1 [b Hy] _ IH]; simpl.
  - by rewrite Hx.
  - rewrite Hy. simpl. by rewrite IH.
Qed.

Lemma mapM_Err_inv {A B} (f : A -> result B) (l : list A) (e : error) :
  mapM f l = Err e ->
  exists l1 x l2, l = l1 ++ x :: l2 /\ Forall (fun y => is_Ok (f y)) l1 /\ f x = Err e.
Proof.
  induction l as [|x l IH]; simpl; [intros [=]|].
  destruct (f x) as [y|e'] eqn:Hx; simpl.
  - destruct (mapM f l) as [k|e''] eqn:Hl; simpl; [intros [=]|].
    intros [= ->]. destruct IH as (l1 & z & l2 & -> & Hl1 & Hz); [done|].
    exists (x :: l1), z, l2. split_and!; [done| |done].
    constructor; [by eexists|done].
  - intros [= ->]. exists [], x, l. by split_and!.
Qed.

(** ** Lists *)

Lemma filter_Forall_id {A} (P : A -> Prop) `{forall x, Decision (P x)} (l : list A) :
  Forall P l -> filter P l = l.
Proof.
  induction 1 as [|x l Hx _ IH]; [done|]. by rewrite filter_cons_True, IH.
Qed.

(** ** Cleaning *)

Lemma append_String (c : Ascii.ascii) (s t : string) :
  String c s +:+ t = String c (s +:+ t).
Proof. reflexivity. Qed.

Lemma append_empty_r (s : string) : s +:+ "" = s.
Proof. induction s as [|c s IH]; [done|]. by rewrite append_String, IH. Qed.

Lemma join_empty_cons (p : string) (ps : list string) :
  join "" (p :: ps) = p +:+ join "" ps.
Proof. destruct ps as [|p' ps]; simpl; [by rewrite append_empty_r|done]. Qed.

Lemma iter_str_join (l : list Ascii.ascii) :
  iter_str (join "" (chr_str <$> l)) = l.
Proof.
  induction l as [|c l IH]; [done|].
  rewrite fmap_cons, join_empty_cons.
  change (chr_str c +:+ ?s) with (String c s).
  change (iter_str (String c ?s)) with (c :: iter_str s). by rewrite IH.
Qed.

Lemma join_iter_str (text : string) :
  join "" (chr_str <$> iter_str text) = text.
Proof.
  induction text as [|c text IH]; [done|].
  change (iter_str (String c text)) with (c :: iter_str text).
  by rewrite fmap_cons, join_empty_cons, IH.
Qed.

Lemma iter_str_clean_ascii (text : string) :
  iter_str (clean_ascii text) = filter (fun i => ord i < 128) (iter_str text).
Proof. unfold clean_ascii. apply iter_str_join. Qed.

Lemma clean_ascii_seven_bit (text : string) : seven_bit (clean_ascii text).
Proof.
  unfold seven_bit. rewrite iter_str_clean_ascii.
  apply Forall_forall. intros i Hi. by apply list_elem_of_filter in Hi as [? _].
Qed.

Lemma clean_ascii_id (text : string) :
  seven_bit text -> clean_ascii text = text.
Proof.
  intros H. unfold clean_ascii.
  rewrite filter_Forall_id; [|done]. apply join_iter_str.
Qed.

Lemma apply_clean_ascii_Ok (col cleaned : list cell) :
  apply_clean_ascii col = Ok cleaned <->
  Forall2 (fun c c' => exists text, c = Str text /\ c' = Str (clean_ascii text)) col cleaned.
Proof.
  unfold apply_clean_ascii. rewrite mapM_Ok.
  split; intros H; eapply Forall2_impl; [exact H| |exact H|]; intros c c'; simpl.
  - destruct c as [text| | | |]; try done. intros [= <-]. by exists text.
  - by intros (text & -> & ->).
Qed.

(** ** Row selection *)

Lemma filter_ext_elem_of {A} (P Q : A -> Prop)
    `{forall x, Decision (P x)} `{forall x, Decision (Q x)} (l : list A) :
  (forall x, x ∈ l -> P x <-> Q x) -> filter P l = filter Q l.
Proof.
  induction l as [|x l IH]; intros HPQ; [done|].
  rewrite !filter_cons.
  rewrite IH by (intros y Hy; apply HPQ; by right).
  destruct (decide (P x)) as [HP|HP], (decide (Q x)) as [HQ|HQ]; try done;
    exfalso; apply (HPQ x) in HP || apply (HPQ x) in HQ; done || by left.
Qed.

Lemma Forall2_seq_lookup {A} (l : list A) :
  Forall2 (fun i x => l !! i = Some x) (seq 0 (length l)) l.
Proof.
  apply Forall2_lookup. intros i.
  destruct (l !! i) as [x|] eqn:Hi.
  - rewrite (lookup_seq_lt 0 (length l) i) by (by eapply lookup_lt_Some).
    by constructor.
  - rewrite lookup_seq_ge by (by apply lookup_ge_None). constructor.
Qed.


Lemma select_app (mask1 mask2 : list bool) (col1 col2 : list cell) :
  length mask1 = length col1 ->
  select (mask1 ++ mask2) (col1 ++ col2) = select mask1 col1 ++ select mask2 col2.
Proof.
  revert col1. induction mask1 as [|b mask1 IH]; intros [|c col1] [=]; simpl; [done|].
  rewrite IH by done. by destruct b.
Qed.

(** Selecting by a mask keeps, in order, the entries at the positions where
    the mask holds. *)
Lemma select_rows (mask : list bool) (col : list cell) :
  length mask = length col ->
  Forall2 (fun i c => col !! i = Some c)
          (filter (fun i => mask !! i = Some true) (seq 0 (length mask)))
          (select mask col).
Proof.
  revert col. induction mask as [|b mask IH] using rev_ind; intros col Hlen.
  { constructor. }
  destruct col as [|c col _] using rev_ind.
  { rewrite length_app in Hlen. simpl in Hlen. lia. }
  rewrite !length_app in Hlen. simpl in Hlen.
  assert (length mask = length col) as Hlen' by lia.
  rewrite select_app by done.
  rewrite length_app, seq_app, filter_app. simpl.
  apply Forall2_app.
  - rewrite (filter_ext_elem_of _ (fun i => mask !! i = Some true)).
    + eapply Forall2_impl; [by apply IH|]. intros i x Hx. simpl in Hx.
      by apply lookup_app_l_Some.
    + intros i Hi. apply elem_of_seq in Hi.
      rewrite lookup_app_l by lia. done.
  - rewrite filter_cons, filter_nil.
    destruct (decide ((mask ++ [b]) !! length mask = Some true)) as [Hb|Hb].
    + rewrite list_lookup_middle in Hb by done. injection Hb as ->. simpl.
      constructor; [|constructor]. rewrite Hlen'. by apply list_lookup_middle.
    + rewrite list_lookup_middle in Hb by done. destruct b; [done|]. constructor.
Qed.

Lemma length_eq_str (tg : list cell) (t : string) :
  length (eq_str tg t) = length tg.
Proof. unfold eq_str. by rewrite length_fmap. Qed.

Lemma eq_str_lookup (tg : list cell) (t : string) (i : nat) :
  eq_str tg t !! i = Some true <-> tg !! i = Some (Str t).
Proof.
  unfold eq_str. rewrite list_lookup_fmap.
  destruct (tg !! i) as [c|]; simpl; [|done].
  split.
  - intros [= Hc]. apply bool_decide_eq_true in Hc. by subst.
  - intros [= ->]. f_equal. by apply bool_decide_eq_true.
Qed.

Lemma kept_rows_mask (df : gmap string (list cell)) (tg : list cell) (t : string) :
  df !! "Target" = Some tg ->
  kept_rows df (Some t) (length tg) =
  filter (fun i => eq_str tg t !! i = Some true) (seq 0 (length (eq_str tg t))).
Proof.
  intros Htg. unfold kept_rows. rewrite Htg. simpl.
  rewrite length_eq_str.
  apply list_filter_iff. intros i. by rewrite eq_str_lookup.
Qed.

(** The entries of a column at the retained rows. *)
Lemma select_kept_rows (df : gmap string (list cell)) (tg col : list cell) (t : string) :
  df !! "Target" = Some tg -> length col = length tg ->
  Forall2 (fun i c => col !! i = Some c)
          (kept_rows df (Some t) (length tg)) (select (eq_str tg t) col).
Proof.
  intros Htg Hlen. rewrite (kept_rows_mask df tg t Htg).
  apply select_rows. by rewrite length_eq_str.
Qed.

Lemma kept_rows_sorted df topic n : StronglySorted lt (kept_rows df topic n).
Proof.
  assert (forall j, StronglySorted lt (seq j n)) as Hseq.
  { induction n as [|n IH]; intros j; simpl; constructor; [done|].
    apply Forall_forall. intros i Hi. apply elem_of_seq in Hi. lia. }
  assert (forall (P : nat -> Prop) `{forall x, Decision (P x)} l,
    StronglySorted lt l -> StronglySorted lt (filter P l)) as Hfilter.
  { intros P ? l. induction 1 as [|x l _ IH Hx]; [constructor|].
    rewrite filter_cons. destruct (decide (P x)); [|done].
    constructor; [done|]. apply Forall_forall. intros y Hy.
    apply list_elem_of_filter in Hy as [_ Hy]. by eapply Forall_forall in Hx. }
  destruct topic; simpl; [apply Hfilter|]; apply Hseq.
Qed.

Lemma elem_of_kept_rows df topic n i :
  i ∈ kept_rows df topic n <->
  i < n /\ match topic with
           | None => True
           | Some t => exists tg, df !! "Target" = Some tg /\ tg !! i = Some (Str t)
           end.
Proof.
  destruct topic as [t|]; simpl.
  - rewrite list_elem_of_filter, elem_of_seq.
    destruct (df !! "Target") as [tg|]; simpl.
    + split; [intros [? ?]; split; [lia|eauto]|].
      intros [? (tg' & [= <-] & ?)]. split; [done|lia].
    + split; [by intros [[=] _]|]. by intros [_ (tg' & [=] & _)].
  - rewrite elem_of_seq. split; [intros ?; split; [lia|done]|intros [? _]; lia].
Qed.

(** ** Label codes *)

Lemma class_nums_None (name : string) :
  name ∉ stances -> class_nums !! name = None.
Proof.
  intros Hn. unfold stances in Hn. rewrite !not_elem_of_cons in Hn.
  destruct Hn as (? & ? & ? & ? & _).
  unfold class_nums, enumerate, stances. simpl.
  by rewrite !lookup_insert_ne, lookup_empty.
Qed.

Lemma class_nums_Some (name : string) (i : nat) :
  class_nums !! name = Some i <-> label_code (Str name) i.
Proof.
  split.
  - unfold class_nums, enumerate, stances. simpl. intros H.
    destruct (decide (name = "UNKNOWN")) as [->|?].
    { rewrite lookup_insert_eq in H. injection H as <-. constructor. }
    rewrite lookup_insert_ne in H by done.
    destruct (decide (name = "NONE")) as [->|?].
    { rewrite lookup_insert_eq in H. injection H as <-. constructor. }
    rewrite lookup_insert_ne in H by done.
    destruct (decide (name = "FAVOR")) as [->|?].
    { rewrite lookup_insert_eq in H. injection H as <-. constructor. }
    rewrite lookup_insert_ne in H by done.
    destruct (decide (name = "AGAINST")) as [->|?].
    { rewrite lookup_insert_eq in H. injection H as <-. constructor. }
    rewrite lookup_insert_ne in H by done. by rewrite lookup_empty in H.
  - inversion 1; subst; by vm_compute.
Qed.

Lemma class_num_Ok (s : cell) (i : nat) :
  class_num s = Ok i <-> label_code s i.
Proof.
  destruct s as [name| | | |]; simpl.
  - rewrite <- class_nums_Some. destruct (class_nums !! name); split; congruence.
  - split; [done|inversion 1].
  - split; [done|inversion 1].
  - split; [done|inversion 1].
  - split; [done|inversion 1].
Qed.

Lemma recognized_label_code (s : cell) :
  recognized s <-> exists i, label_code s i.
Proof.
  unfold recognized, stances. simpl. rewrite !elem_of_cons, elem_of_nil. split.
  - intros [->|[->|[->|[->|[]]]]]; eexists; constructor.
  - intros [i Hi]. inversion Hi; tauto.
Qed.

Lemma class_num_Err (s : cell) :
  ~ recognized s -> class_num s = Err (KeyError s).
Proof.
  intros Hs. destruct (class_num s) as [i|e] eqn:H.
  - exfalso. apply Hs, recognized_label_code. exists i. by apply class_num_Ok.
  - destruct s as [name| | | |]; simpl in H; try done.
    by destruct (class_nums !! name).
Qed.

Lemma label_code_lt (s : cell) (i : nat) : label_code s i -> i < 4.
Proof. inversion 1; lia. Qed.

Lemma label_code_inj (s1 s2 : cell) (i : nat) :
  label_code s1 i -> label_code s2 i -> s1 = s2.
Proof. inversion 1; inversion 1; done. Qed.

(** ** [_stance], step by step *)

Lemma _stance_Ok_intro files path topic df tweet cleaned st X Y :
  files !! path = Some df ->
  df !! "Tweet" = Some tweet ->
  apply_clean_ascii tweet = Ok cleaned ->
  df !! "Stance" = Some st ->
  match topic with
  | None => X = cleaned /\ mapM class_num st = Ok Y
  | Some t => exists tg, df !! "Target" = Some tg /\
                X = select (eq_str tg t) cleaned /\
                mapM class_num (select (eq_str tg t) st) = Ok Y
  end ->
  _stance files path topic = Ok (X, Y).
Proof.
  intros Hdf Htw Hcl Hst Htopic.
  unfold _stance, read_csv. rewrite Hdf. simpl.
  unfold getitem at 1. rewrite Htw. simpl. rewrite Hcl. simpl.
  destruct topic as [t|]; simpl.
  - destruct Htopic as (tg & Htg & -> & HY).
    unfold getitem, setitem. rewrite lookup_insert_ne, Htg by done. simpl.
    unfold getattr, loc. rewrite !lookup_fmap.
    rewrite lookup_insert_eq, lookup_insert_ne, Hst by done. simpl.
    by rewrite HY.
  - destruct Htopic as [-> HY].
    unfold getattr, setitem.
    rewrite lookup_insert_eq, lookup_insert_ne, Hst by done. simpl.
    by rewrite HY.
Qed.

Lemma _stance_Ok_inv files path topic X Y :
  _stance files path topic = Ok (X, Y) ->
  exists df tweet cleaned st,
    files !! path = Some df /\
    df !! "Tweet" = Some tweet /\
    apply_clean_ascii tweet = Ok cleaned /\
    df !! "Stance" = Some st /\
    match topic with
    | None => X = cleaned /\ mapM class_num st = Ok Y
    | Some t => exists tg, df !! "Target" = Some tg /\
                  X = select (eq_str tg t) cleaned /\
                  mapM class_num (select (eq_str tg t) st) = Ok Y
    end.
Proof.
  unfold _stance, read_csv. intros H.
  destruct (files !! path) as [df|] eqn:Hdf; [|done]. simpl in H.
  unfold getitem at 1 in H.
  destruct (df !! "Tweet") as [tweet|] eqn:Htw; [|done]. simpl in H.
  destruct (apply_clean_ascii tweet) as [cleaned|] eqn:Hcl; [|done]. simpl in H.
  exists df, tweet, cleaned.
  destruct topic as [t|]; simpl in H.
  - unfold getitem, setitem in H. rewrite lookup_insert_ne in H by done.
    destruct (df !! "Target") as [tg|] eqn:Htg; [|done]. simpl in H.
    unfold getattr, loc in H. rewrite !lookup_fmap in H.
    rewrite lookup_insert_eq, lookup_insert_ne in H by done. simpl in H.
    destruct (df !! "Stance") as [st|] eqn:Hst; [|done]. simpl in H.
    destruct (mapM class_num _) as [Y'|] eqn:HY; [|done].
    injection H as <- <-. exists st. split_and!; try done. by exists tg.
  - unfold getattr, setitem in H.
    rewrite lookup_insert_eq, lookup_insert_ne in H by done. simpl in H.
    destruct (df !! "Stance") as [st|] eqn:Hst; [|done]. simpl in H.
    destruct (mapM class_num st) as [Y'|] eqn:HY; [|done].
    injection H as <- <-. by exists st.
Qed.

Lemma Forall2_compose {A B C} (P : A -> B -> Prop) (Q : B -> C -> Prop) l k m :
  Forall2 P l k -> Forall2 Q k m ->
  Forall2 (fun x z => exists y, P x y /\ Q y z) l m.
Proof.
  intros H. revert m. induction H as [|x y l k Hxy _ IH]; intros m; inversion 1; subst.
  - constructor.
  - constructor; [eauto|]. by apply IH.
Qed.

Lemma apply_clean_ascii_length col cleaned :
  apply_clean_ascii col = Ok cleaned -> length cleaned = length col.
Proof. apply mapM_Ok_length. Qed.

Lemma apply_clean_ascii_total col :
  Forall is_Str col -> exists cleaned, apply_clean_ascii col = Ok cleaned.
Proof.
  induction 1 as [|c col Hc _ [cleaned IH]].
  - by exists [].
  - destruct Hc as [text ->].
    exists (Str (clean_ascii text) :: cleaned).
    unfold apply_clean_ascii in *. simpl. by rewrite IH.
Qed.

(** The entries of a column of [df] at the rows retained for [topic], as the
    code selects them. *)
Lemma retained_rows df topic n col sel :
  frame_rows df n -> length col = n ->
  match topic with
  | None => sel = col
  | Some t => exists tg, df !! "Target" = Some tg /\ sel = select (eq_str tg t) col
  end ->
  Forall2 (fun i c => col !! i = Some c) (kept_rows df topic n) sel.
Proof.
  intros Hdf Hlen Hsel. destruct topic as [t|].
  - destruct Hsel as (tg & Htg & ->).
    rewrite <- (Hdf _ _ Htg). apply select_kept_rows; [done|].
    by rewrite (Hdf _ _ Htg).
  - subst sel. simpl. rewrite <- Hlen. apply Forall2_seq_lookup.
Qed.

(** What [_stance] returns, row by row. *)
Lemma _stance_rows files path topic X Y df n :
  files !! path = Some df -> frame_rows df n ->
  _stance files path topic = Ok (X, Y) ->
  exists tweet st,
    df !! "Tweet" = Some tweet /\ df !! "Stance" = Some st /\
    Forall2 (fun i x => exists text, tweet !! i = Some (Str text) /\ x = Str (clean_ascii text))
            (kept_rows df topic n) X /\
    Forall2 (fun i y => exists s, st !! i = Some s /\ label_code s y)
            (kept_rows df topic n) Y.
Proof.
  intros Hdf Hn H.
  apply _stance_Ok_inv in H as (df' & tweet & cleaned & st & Hdf' & Htw & Hcl & Hst & Htopic).
  rewrite Hdf in Hdf'. injection Hdf' as <-.
  exists tweet, st. split_and!; [done|done| |].
  - assert (Forall2 (fun i c => cleaned !! i = Some c) (kept_rows df topic n) X) as HX.
    { apply retained_rows; [done| |].
      - rewrite (apply_clean_ascii_length _ _ Hcl). by apply (Hn "Tweet").
      - destruct topic as [t|]; [|tauto].
        destruct Htopic as (tg & ? & ? & _). eauto. }
    apply apply_clean_ascii_Ok in Hcl.
    eapply Forall2_impl; [exact HX|]. intros i c Hc. simpl in Hc.
    destruct (Forall2_lookup_r _ _ _ _ _ Hcl Hc) as (c0 & Hc0 & text & -> & ->).
    eauto.
  - assert (exists sel, Forall2 (fun i c => st !! i = Some c) (kept_rows df topic n) sel
                        /\ mapM class_num sel = Ok Y) as (sel & Hsel & HY).
    { destruct topic as [t|].
      - destruct Htopic as (tg & Htg & _ & HY). eexists. split; [|exact HY].
        apply retained_rows; [done|by apply (Hn "Stance")|eauto].
      - destruct Htopic as [_ HY]. exists st. split; [|done].
        apply retained_rows; [done|by apply (Hn "Stance")|done]. }
    apply mapM_Ok in HY.
    eapply Forall2_impl; [exact (Forall2_compose _ _ _ _ _ Hsel HY)|].
    intros i y (s & Hs & Hy). simpl in *. exists s. split; [done|]. by apply class_num_Ok.
Qed.

Lemma elem_of_select (mask : list bool) (col : list cell) (c : cell) :
  c ∈ select mask col -> c ∈ col.
Proof.
  revert col. induction mask as [|b mask IH]; intros [|c' col]; simpl; try by inversion 1.
  destruct b.
  - rewrite !elem_of_cons. intros [->|H]; [by left|right; by apply IH].
  - intros H. right. by apply IH.
Qed.

Lemma class_num_Err_inv (s : cell) (e : error) :
  class_num s = Err e -> e = KeyError s /\ ~ recognized s.
Proof.
  intros H. split.
  - destruct s as [name| | | |]; simpl in H; try congruence.
    destruct (class_nums !! name); congruence.
  - intros (i & Hi)%recognized_label_code. apply class_num_Ok in Hi. congruence.
Qed.

(** [_stance] up to the encoding of the labels: when the file is there, has
    the columns, and every tweet is a string, the result is decided by the
    encoding of the retained [Stance] entries. *)
Lemma _stance_encoding_step files path topic df tweet st :
  files !! path = Some df ->
  df !! "Tweet" = Some tweet ->
  Forall is_Str tweet ->
  df !! "Stance" = Some st ->
  (forall t, topic = Some t -> is_Some (df !! "Target")) ->
  exists cleaned mask,
    apply_clean_ascii tweet = Ok cleaned /\
    match topic with
    | None => mask = None
    | Some t => exists tg, df !! "Target" = Some tg /\ mask = Some (eq_str tg t)
    end /\
    let sel col := match mask with Some m => select m col | None => col end in
    _stance files path topic = (Y ← mapM class_num (sel st); Ok (sel cleaned, Y)).
Proof.
  intros Hdf Htw Hstr Hst Htg.
  destruct (apply_clean_ascii_total tweet Hstr) as [cleaned Hcl].
  exists cleaned.
  unfold _stance, read_csv. rewrite Hdf. simpl.
  unfold getitem at 1. rewrite Htw. simpl. rewrite Hcl. simpl.
  destruct topic as [t|]; simpl.
  - destruct (Htg t eq_refl) as [tg Htg'].
    exists (Some (eq_str tg t)). split_and!; [done|by exists tg|].
    unfold getitem, setitem. rewrite lookup_insert_ne, Htg' by done. simpl.
    unfold getattr, loc. rewrite !lookup_fmap.
    rewrite lookup_insert_eq, lookup_insert_ne, Hst by done. done.
  - exists None. split_and!; [done|done|].
    unfold getattr, setitem.
    rewrite lookup_insert_eq, lookup_insert_ne, Hst by done. done.
Qed.

(** ** The claims on [_stance] *)

(** C7. For a file whose frame has [n] rows in every column, the two
    sequences that [_stance] returns have equal length, and they are aligned
    through the increasing list of the retained row numbers: the [k]-th text
    is the cleaned [Tweet] and the [k]-th label the code of the [Stance] of
    the [k]-th retained row. *)
Theorem _stance_aligned_in_row_order files path topic X Y df n :
  files !! path = Some df -> frame_rows df n ->
  _stance files path topic = Ok (X, Y) ->
  length X = length Y /\
  exists tweet st,
    df !! "Tweet" = Some tweet /\ df !! "Stance" = Some st /\
    StronglySorted lt (kept_rows df topic n) /\
    Forall2 (fun i x => exists text, tweet !! i = Some (Str text) /\ x = Str (clean_ascii text))
            (kept_rows df topic n) X /\
    Forall2 (fun i y => exists s, st !! i = Some s /\ label_code s y)
            (kept_rows df topic n) Y.
Proof.
  intros Hdf Hn H.
  destruct (_stance_rows _ _ _ _ _ _ _ Hdf Hn H) as (tweet & st & Htw & Hst & HX & HY).
  split.
  - rewrite <- (Forall2_length _ _ _ HX). by apply Forall2_length in HY.
  - exists tweet, st. split_and!; try done. apply kept_rows_sorted.
Qed.

Lemma mapM_class_num_total (sel : list cell) :
  Forall (fun c => exists y, label_code c y) sel ->
  exists Y, mapM class_num sel = Ok Y.
Proof.
  induction 1 as [|c sel [y Hy] _ [Y IH]]; [by exists []|].
  apply class_num_Ok in Hy. exists (y :: Y). simpl. by rewrite Hy, IH.
Qed.

Lemma class_num_unrecognized (s : cell) :
  (forall y, ~ label_code s y) -> class_num s = Err (KeyError s).
Proof.
  intros Hs. apply class_num_Err. intros [y Hy]%recognized_label_code.
  by apply (Hs y).
Qed.

(** C2, as the code has it. On a file that parses into a frame whose
    tweets are strings, [_stance] encodes the [Stance] of the retained rows
    by the fixed mapping AGAINST→0, FAVOR→1, NONE→2, UNKNOWN→3: when every
    retained row has one of the four names the call returns their codes, row
    by row, and otherwise it raises [KeyError] on the [Stance] of the first
    retained row that has none of them. No code is given to another value:
    whenever the call returns, every label is the code of the [Stance] of
    its row. *)
Theorem _stance_label_encoding files path topic df n tweet st :
  files !! path = Some df -> frame_rows df n ->
  df !! "Tweet" = Some tweet -> df !! "Stance" = Some st ->
  (forall X Y, _stance files path topic = Ok (X, Y) ->
     Forall2 (fun i y => exists s, st !! i = Some s /\ label_code s y)
             (kept_rows df topic n) Y) /\
  (Forall is_Str tweet ->
   (forall t, topic = Some t -> is_Some (df !! "Target")) ->
   (Forall (fun i => exists s y, st !! i = Some s /\ label_code s y)
           (kept_rows df topic n) ->
    exists X Y,
      _stance files path topic = Ok (X, Y) /\
      Forall2 (fun i y => exists s, st !! i = Some s /\ label_code s y)
              (kept_rows df topic n) Y) /\
   (forall rows j rows' s,
      kept_rows df topic n = rows ++ j :: rows' ->
      Forall (fun i => exists s0 y, st !! i = Some s0 /\ label_code s0 y) rows ->
      st !! j = Some s -> (forall y, ~ label_code s y) ->
      _stance files path topic = Err (KeyError s))).
Proof.
  intros Hdf Hn Htw Hst.
  assert (forall X Y, _stance files path topic = Ok (X, Y) ->
     Forall2 (fun i y => exists s, st !! i = Some s /\ label_code s y)
             (kept_rows df topic n) Y) as Hcodes.
  { intros X Y H.
    destruct (_stance_rows _ _ _ _ _ _ _ Hdf Hn H) as (tweet' & st' & _ & Hst' & _ & HY).
    rewrite Hst in Hst'. by injection Hst' as <-. }
  split; [done|]. intros Hstr Htg.
  destruct (_stance_encoding_step files path topic df tweet st Hdf Htw Hstr Hst Htg)
    as (cleaned & mask & _ & Hmask & Heq).
  simpl in Heq.
  set (sel := match mask with Some m => select m st | None => st end) in *.
  assert (Forall2 (fun i c => st !! i = Some c) (kept_rows df topic n) sel) as Hsel.
  { apply retained_rows; [done|by apply (Hn "Stance")|].
    destruct topic as [t|]; [|by subst mask].
    destruct Hmask as (tg & Htg' & ->). eauto. }
  split.
  - intros Hall.
    destruct (mapM_class_num_total sel) as [Y HY].
    { apply Forall_forall. intros c Hc. apply list_elem_of_lookup in Hc as [k Hk].
      destruct (Forall2_lookup_r _ _ _ _ _ Hsel Hk) as (i & Hi & Hc).
      eapply Forall_forall in Hall; [|by apply list_elem_of_lookup; eauto].
      destruct Hall as (s0 & y & Hs0 & Hy). simpl in Hc.
      rewrite Hs0 in Hc. injection Hc as <-. eauto. }
    assert (_stance files path topic
            = Ok (match mask with Some m => select m cleaned | None => cleaned end, Y))
      as Hok by (by rewrite Heq, HY).
    eexists _, Y. split; [exact Hok|]. by eapply Hcodes.
  - intros rows j rows' s Hrows Hall Hj Hs.
    rewrite Hrows in Hsel.
    apply Forall2_app_inv_l in Hsel as (l1 & l2 & Hl1 & Hl2 & Hsel).
    inversion Hl2 as [|? x ? l2' Hx _]; subst. simpl in Hx.
    rewrite Hj in Hx. injection Hx as <-.
    rewrite Heq, Hsel, (mapM_Err_intro class_num l1 s l2' (KeyError s)); [done| |].
    + apply Forall_forall. intros c Hc. apply list_elem_of_lookup in Hc as [k Hk].
      destruct (Forall2_lookup_r _ _ _ _ _ Hl1 Hk) as (i & Hi & Hc).
      eapply Forall_forall in Hall; [|by apply list_elem_of_lookup; eauto].
      destruct Hall as (s0 & y & Hs0 & Hy). simpl in Hc.
      rewrite Hs0 in Hc. injection Hc as <-. exists y. by apply class_num_Ok.
    + by apply class_num_unrecognized.
Qed.

Lemma select_no_match (tg col : list cell) (t : string) :
  Str t ∉ tg -> select (eq_str tg t) col = [].
Proof.
  revert col. induction tg as [|c tg IH]; intros col Hnot; [done|].
  apply not_elem_of_cons in Hnot as [Hc Hnot].
  destruct col as [|c' col]; [done|]. simpl.
  rewrite bool_decide_eq_false_2 by congruence. by apply IH.
Qed.

(** When no row of the file has the topic as its [Target], [_stance]
    returns two empty sequences. *)
Lemma _stance_no_matching_row files path t df tweet tg :
  files !! path = Some df ->
  df !! "Tweet" = Some tweet -> Forall is_Str tweet ->
  is_Some (df !! "Stance") ->
  df !! "Target" = Some tg -> Str t ∉ tg ->
  _stance files path (Some t) = Ok ([], []).
Proof.
  intros Hdf Htw Hstr [st Hst] Htg Hnot.
  destruct (_stance_encoding_step files path (Some t) df tweet st Hdf Htw Hstr Hst)
    as (cleaned & mask & _ & (tg' & Htg' & ->) & ->); [eauto|].
  rewrite Htg in Htg'. injection Htg' as <-.
  by rewrite !select_no_match.
Qed.

(** C8. The characters of a cleaned text are the characters of the text of
    code point below 128, in their order, so none of them is 128 or more, and
    a text without such a character is left as it is; every text that
    [_stance] returns is the cleaned form of a [Tweet] of the file. *)
Theorem clean_ascii_strips_high_chars :
  (forall text,
     iter_str (clean_ascii text) = filter (fun i => ord i < 128) (iter_str text) /\
     seven_bit (clean_ascii text) /\
     (seven_bit text -> clean_ascii text = text)) /\
  (forall files path topic X Y df tweet,
     files !! path = Some df -> df !! "Tweet" = Some tweet ->
     _stance files path topic = Ok (X, Y) ->
     Forall (fun x => exists text, Str text ∈ tweet /\ x = Str (clean_ascii text) /\
                                   seven_bit (clean_ascii text)) X).
Proof.
  split.
  - intros text. split_and!.
    + apply iter_str_clean_ascii.
    + apply clean_ascii_seven_bit.
    + apply clean_ascii_id.
  - intros files path topic X Y df tweet Hdf Htw H.
    apply _stance_Ok_inv in H as (df' & tweet' & cleaned & st & Hdf' & Htw' & Hcl & _ & Htopic).
    rewrite Hdf in Hdf'. injection Hdf' as <-.
    rewrite Htw in Htw'. injection Htw' as <-.
    apply apply_clean_ascii_Ok in Hcl.
    assert (forall x, x ∈ X -> x ∈ cleaned) as Hsub.
    { destruct topic as [t|].
      - destruct Htopic as (tg & _ & -> & _). intros x. apply elem_of_select.
      - by destruct Htopic as [-> _]. }
    apply Forall_forall. intros x Hx%Hsub.
    apply list_elem_of_lookup in Hx as [i Hi].
    destruct (Forall2_lookup_r _ _ _ _ _ Hcl Hi) as (c & Hc & text & -> & ->).
    exists text. split_and!; [|done|apply clean_ascii_seven_bit].
    apply list_elem_of_lookup. eauto.
Qed.

(** C10. The cleaning step writes the [Tweet] column only: every other
    column of the frame is as read from the file, and the topic mask and the
    labels of the result are computed from the [Target] and [Stance] columns
    of the file. *)
Theorem clean_ascii_writes_Tweet_only files path topic X Y df :
  files !! path = Some df ->
  _stance files path topic = Ok (X, Y) ->
  exists tweet cleaned st,
    df !! "Tweet" = Some tweet /\
    apply_clean_ascii tweet = Ok cleaned /\
    setitem df "Tweet" cleaned !! "Tweet" = Some cleaned /\
    (forall name, name <> "Tweet" -> setitem df "Tweet" cleaned !! name = df !! name) /\
    df !! "Stance" = Some st /\
    match topic with
    | None => X = cleaned /\ mapM class_num st = Ok Y
    | Some t => exists tg, df !! "Target" = Some tg /\
                  X = select (eq_str tg t) cleaned /\
                  mapM class_num (select (eq_str tg t) st) = Ok Y
    end.
Proof.
  intros Hdf H.
  apply _stance_Ok_inv in H as (df' & tweet & cleaned & st & Hdf' & Htw & Hcl & Hst & Htopic).
  rewrite Hdf in Hdf'. injection Hdf' as <-.
  exists tweet, cleaned, st. split_and!; try done.
  - apply lookup_insert_eq.
  - intros name Hname. unfold setitem. by rewrite lookup_insert_ne.
Qed.

(** ** The topic filter *)

Lemma filter_topic_Some df t tg :
  df !! "Target" = Some tg -> filter_topic df (Some t) = Ok (loc df (eq_str tg t)).
Proof. intros H. unfold filter_topic, getitem. by rewrite H. Qed.

Lemma filter_topic_Ok_inv df t df' :
  filter_topic df (Some t) = Ok df' ->
  exists tg, df !! "Target" = Some tg /\ df' = loc df (eq_str tg t).
Proof.
  unfold filter_topic, getitem. destruct (df !! "Target") as [tg|]; [|done].
  intros [= <-]. eauto.
Qed.



Lemma filter_topic_rows df t tg n :
  df !! "Target" = Some tg -> frame_rows df n ->
  exists df',
    filter_topic df (Some t) = Ok df' /\
    (forall name, df !! name = None -> df' !! name = None) /\
    (forall name col, df !! name = Some col ->
       exists col', df' !! name = Some col' /\
         Forall2 (fun i c => col !! i = Some c) (kept_rows df (Some t) n) col').
Proof.
  intros Htg Hn. exists (loc df (eq_str tg t)). split_and!.
  - by apply filter_topic_Some.
  - intros name Hname. unfold loc. by rewrite lookup_fmap, Hname.
  - intros name col Hcol. exists (select (eq_str tg t) col). split.
    + unfold loc. by rewrite lookup_fmap, Hcol.
    + apply retained_rows; [done|by apply (Hn name)|eauto].
Qed.

(** ** Sizes of the split *)

Lemma Qfloor_le_Qceiling (q : Q) : (Qfloor q <= Qceiling q <= Qfloor q + 1)%Z.
Proof.
  split.
  - rewrite Zle_Qle. apply Qle_floor_ceiling.
  - assert (inject_Z (Qceiling q - 1) < inject_Z (Qfloor q + 1))%Q as H.
    { eapply Qlt_trans; [apply Qceiling_lt|apply Qlt_floor]. }
    rewrite <- Zlt_Qlt in H. lia.
Qed.

Lemma py_round_floor (q : Q) : (Qfloor q <= py_round q <= Qfloor q + 1)%Z.
Proof.
  unfold py_round. destruct (_ ?= _)%Q; [destruct (Z.even _)| |]; lia.
Qed.

(** The ceiling and the rounding of a number differ by one at most. *)
Lemma ceil_py_round (q : Q) : (Z.abs (ceil q - py_round q) <= 1)%Z.
Proof.
  unfold ceil. pose proof (Qfloor_le_Qceiling q). pose proof (py_round_floor q). lia.
Qed.

Lemma ceil_fraction_bounds (f : Q) (n : nat) :
  (0 < f)%Q -> (f < 1)%Q ->
  (0 <= ceil (f * inject_Z (Z.of_nat n)) <= Z.of_nat n)%Z.
Proof.
  intros H0 H1. unfold ceil.
  assert (0 <= inject_Z (Z.of_nat n))%Q as Hn.
  { rewrite <- (Zle_Qle 0). lia. }
  split.
  - change 0%Z with (Qceiling 0). apply Qceiling_resp_le.
    apply Qmult_le_0_compat; [by apply Qlt_le_weak|done].
  - rewrite <- (Qceiling_Z (Z.of_nat n)) at 2. apply Qceiling_resp_le.
    rewrite <- (Qmult_1_l (inject_Z (Z.of_nat n))) at 2.
    apply Qmult_le_compat_r; [by apply Qlt_le_weak|done].
Qed.

Lemma ceil_fifth (n : nat) :
  ceil ((1 # 5) * inject_Z (Z.of_nat n)) = ((Z.of_nat n + 4) / 5)%Z.
Proof.
  unfold ceil, Qceiling, Qfloor, Qopp, Qmult, inject_Z. simpl.
  change (Z.pos (5 * 1)) with 5%Z. rewrite Z.mul_1_l.
  Z.div_mod_to_equations. lia.
Qed.

(** ** The pieces of [stance] *)

Lemma safe_indexing_Ok {A} (a : list A) (indices : list nat) (out : list A) :
  safe_indexing a indices = Ok out <->
  Forall2 (fun i x => a !! i = Some x) indices out.
Proof.
  unfold safe_indexing. rewrite mapM_Ok.
  split; intros H; eapply Forall2_impl; [exact H| |exact H|]; intros i x; simpl.
  - by destruct (a !! i); intros [= <-].
  - by intros ->.
Qed.

Lemma append_loop_acc {A B} (l : list (A * B)) (xs : list A) (ys : list B) :
  foldl (fun '(xs, ys) '(t, s) => (xs ++ [t], ys ++ [s])) (xs, ys) l
  = (xs ++ l.*1, ys ++ l.*2).
Proof.
  revert xs ys. induction l as [|[t s] l IH]; intros xs ys; simpl.
  - by rewrite !app_nil_r.
  - rewrite IH. by rewrite <- !app_assoc.
Qed.

(** The two loops of [stance] copy the two arrays. *)
Lemma append_loop_copy {A B} (text : list A) (sent : list B) :
  length text = length sent -> append_loop text sent = (text, sent).
Proof.
  intros Hlen. unfold append_loop. rewrite append_loop_acc. simpl.
  rewrite fst_zip, snd_zip by lia. done.
Qed.

Lemma int32_small (z : Z) : (- 2 ^ 31 <= z < 2 ^ 31)%Z -> int32 z = z.
Proof. intros Hz. unfold int32. rewrite Z.mod_small; lia. Qed.

(** The label codes fit 32 bits. *)
Lemma asarray_int32_codes (a : list nat) :
  Forall (fun i => i < 4) a -> asarray_int32 a = Z.of_nat <$> a.
Proof.
  intros Ha. unfold asarray_int32. apply Forall_fmap_ext.
  eapply Forall_impl; [exact Ha|]. intros i Hi. simpl in *. apply int32_small. lia.
Qed.

Lemma _stance_codes_lt files path topic X Y :
  _stance files path topic = Ok (X, Y) -> Forall (fun i => i < 4) Y.
Proof.
  intros H.
  apply _stance_Ok_inv in H as (df & tweet & cleaned & st & _ & _ & _ & _ & Htopic).
  assert (exists sel, mapM class_num sel = Ok Y) as [sel HY].
  { destruct topic; [destruct Htopic as (? & _ & _ & ?)|destruct Htopic]; eauto. }
  apply mapM_Ok in HY. apply Forall_forall. intros y Hy.
  apply list_elem_of_lookup in Hy as [k Hk].
  destruct (Forall2_lookup_r _ _ _ _ _ HY Hk) as (s & _ & Hs).
  apply class_num_Ok in Hs. by eapply label_code_lt.
Qed.

Section split_properties.

Variable permutation : Z -> nat -> list nat.
Variable empty_train_raises : bool.

Lemma _validate_shuffle_split_Ok n f n_train n_test :
  _validate_shuffle_split empty_train_raises n f = Ok (n_train, n_test) ->
  (0 < f)%Q /\ (f < 1)%Q /\
  Z.of_nat n_test = ceil (f * inject_Z (Z.of_nat n)) /\
  n_train + n_test = n /\
  (empty_train_raises = true -> n_train <> 0).
Proof.
  unfold _validate_shuffle_split.
  destruct (Qle_bool f 0) eqn:H0; [done|].
  destruct (Qle_bool 1 f) eqn:H1; [done|]. simpl.
  assert (0 < f)%Q as Hf0.
  { apply Qnot_le_lt. intros Hle. apply Qle_bool_iff in Hle. congruence. }
  assert (f < 1)%Q as Hf1.
  { apply Qnot_le_lt. intros Hle. apply Qle_bool_iff in Hle. congruence. }
  pose proof (ceil_fraction_bounds f n Hf0 Hf1) as Hb.
  destruct (empty_train_raises && _) eqn:He; [done|].
  intros [= <- <-]. split_and!; try done; try lia.
  intros ->. simpl in He. apply bool_decide_eq_false in He. lia.
Qed.

(** What [train_test_split] returns: the entries of the two arrays at the
    two index lists cut from the permutation. *)
Lemma train_test_split_Ok_inv {A B} (X : list A) (Y : list B) f s a b c d :
  train_test_split permutation empty_train_raises X Y f s = Ok (a, b, c, d) ->
  exists n_train n_test,
    length X = length Y /\
    _validate_shuffle_split empty_train_raises (length X) f = Ok (n_train, n_test) /\
    (0 <= s < 2 ^ 32)%Z /\
    let '(ind_train, ind_test) :=
      _iter_indices permutation (length X) n_train n_test s in
    Forall2 (fun i x => X !! i = Some x) ind_train a /\
    Forall2 (fun i x => X !! i = Some x) ind_test b /\
    Forall2 (fun i y => Y !! i = Some y) ind_train c /\
    Forall2 (fun i y => Y !! i = Some y) ind_test d.
Proof.
  unfold train_test_split. case_bool_decide as Hlen; [|done].
  intros H. apply bind_Ok in H as ([n_train n_test] & Hv & H).
  apply bind_Ok in H as (rng & Hrng & H).
  unfold check_random_state in Hrng. case_bool_decide as Hs; [|done].
  injection Hrng as <-.
  exists n_train, n_test. do 3 (split; [done|]).
  destruct (_iter_indices _ _ _ _ _) as [ind_train ind_test].
  apply bind_Ok in H as (a' & Ha & H). apply bind_Ok in H as (b' & Hb & H).
  apply bind_Ok in H as (c' & Hc & H). apply bind_Ok in H as (d' & Hd & H).
  injection H as <- <- <- <-.
  split_and!; by apply safe_indexing_Ok.
Qed.

(** What [stance] returns. *)
Lemma stance_Ok_inv e data_dir topic trX trY vaX vaY te :
  stance permutation empty_train_raises e data_dir topic
    = Ok ((trX, trY), (vaX, vaY), te) ->
  exists X Y teY s,
    _stance (files e) (path_div data_dir trainfile) topic = Ok (X, Y) /\
    _stance (files e) (path_div data_dir testfile) topic = Ok (te, teY) /\
    seed e = Some s /\
    exists tr_sent va_sent,
      train_test_split permutation empty_train_raises X Y (1 # 5) s
        = Ok (trX, vaX, tr_sent, va_sent) /\
      trY = Z.of_nat <$> tr_sent /\ vaY = Z.of_nat <$> va_sent.
Proof.
  unfold stance. intros H.
  apply bind_Ok in H as ([X Y] & HXY & H).
  apply bind_Ok in H as ([teX teY] & Hte & H).
  apply bind_Ok in H as (s & Hs & H).
  apply bind_Ok in H as ([[[tr_text va_text] tr_sent] va_sent] & Hsplit & H).
  destruct (seed e) as [s'|] eqn:Hseed; [|done]. injection Hs as ->.
  exists X, Y, teY, s.
  pose proof Hsplit as Hinv.
  apply train_test_split_Ok_inv in Hinv as (n_train & n_test & _ & _ & _ & Hidx).
  destruct (_iter_indices _ _ _ _ _) as [ind_train ind_test].
  destruct Hidx as (Ha & Hb & Hc & Hd).
  rewrite !append_loop_copy in H.
  2: { rewrite <- (Forall2_length _ _ _ Hb). by apply Forall2_length in Hd. }
  2: { rewrite <- (Forall2_length _ _ _ Ha). by apply Forall2_length in Hc. }
  injection H as <- <- <- <- <-.
  pose proof (_stance_codes_lt _ _ _ _ _ HXY) as HY.
  assert (forall idx out, Forall2 (fun i y => Y !! i = Some y) idx out ->
                          Forall (fun i => i < 4) out) as Hlt.
  { intros idx out Hout. apply Forall_forall. intros y Hy.
    apply list_elem_of_lookup in Hy as [k Hk].
    destruct (Forall2_lookup_r _ _ _ _ _ Hout Hk) as (i & _ & Hi).
    eapply Forall_forall in HY; [exact HY|]. apply list_elem_of_lookup. eauto. }
  split_and!; try done.
  exists tr_sent, va_sent. split_and!; [done| |]; apply asarray_int32_codes; eauto.
Qed.

End split_properties.

(** ** The claims on [stance] *)

Section split_claims.

Variable permutation : Z -> nat -> list nat.
Variable empty_train_raises : bool.

(** The contract of the library's generator. *)
Hypothesis permutation_spec : forall s n, permutation s n ≡ₚ seq 0 n.

Lemma _iter_indices_partition n n_train n_test s ind_train ind_test :
  n_train + n_test = n ->
  _iter_indices permutation n n_train n_test s = (ind_train, ind_test) ->
  ind_test ++ ind_train ≡ₚ seq 0 n /\
  length ind_train = n_train /\ length ind_test = n_test.
Proof.
  intros Hn [= <- <-].
  pose proof (Permutation_length (permutation_spec s n)) as Hlen.
  rewrite length_seq in Hlen.
  rewrite (take_ge (drop _ _)) by (rewrite length_drop; lia).
  rewrite take_drop. split_and!; [done| |].
  - rewrite length_drop. lia.
  - rewrite length_take. lia.
Qed.

(** The index lists of a successful call, with what they select. *)
Lemma stance_indices e data_dir topic X Y trX trY vaX vaY te :
  _stance (files e) (path_div data_dir trainfile) topic = Ok (X, Y) ->
  stance permutation empty_train_raises e data_dir topic
    = Ok ((trX, trY), (vaX, vaY), te) ->
  exists ind_train ind_val : list nat,
    ind_val ++ ind_train ≡ₚ seq 0 (length X) /\
    Z.of_nat (length ind_val)
      = ceil ((1 # 5) * inject_Z (Z.of_nat (length X))) /\
    Forall2 (fun i x => X !! i = Some x) ind_train trX /\
    Forall2 (fun i y => exists c, Y !! i = Some c /\ y = Z.of_nat c) ind_train trY /\
    Forall2 (fun i x => X !! i = Some x) ind_val vaX /\
    Forall2 (fun i y => exists c, Y !! i = Some c /\ y = Z.of_nat c) ind_val vaY.
Proof.
  intros HXY H.
  apply stance_Ok_inv in H
    as (X' & Y' & teY & s & HXY' & _ & _ & tr_sent & va_sent & Hsplit & -> & ->).
  rewrite HXY in HXY'. injection HXY' as <- <-.
  apply train_test_split_Ok_inv in Hsplit as (n_train & n_test & _ & Hv & _ & Hidx).
  apply _validate_shuffle_split_Ok in Hv as (_ & _ & Hceil & Hsum & _).
  destruct (_iter_indices _ _ _ _ _) as [ind_train ind_test] eqn:Hind.
  destruct (_iter_indices_partition _ _ _ _ _ _ Hsum Hind) as (Hperm & Hltr & Hlte).
  destruct Hidx as (Ha & Hb & Hc & Hd).
  exists ind_train, ind_test. split_and!; try done.
  - by rewrite Hlte.
  - apply Forall2_fmap_r. eapply Forall2_impl; [exact Hc|]. simpl. eauto.
  - apply Forall2_fmap_r. eapply Forall2_impl; [exact Hd|]. simpl. eauto.
Qed.

(** C5. The validation fraction of [stance] is 0.2, the only one that a
    call can have. Of the [n] rows loaded from the training file,
    [ceil(0.2 * n)] go to validation, which is within one of
    [round(0.2 * n)], and the others to training, so the two sizes add up
    to [n]. *)
Theorem stance_split_sizes e data_dir topic X Y trX trY vaX vaY te :
  _stance (files e) (path_div data_dir trainfile) topic = Ok (X, Y) ->
  stance permutation empty_train_raises e data_dir topic
    = Ok ((trX, trY), (vaX, vaY), te) ->
  let n := Z.of_nat (length X) in
  Z.of_nat (length vaX) = ceil ((1 # 5) * inject_Z n) /\
  (Z.abs (Z.of_nat (length vaX) - py_round ((1 # 5) * inject_Z n)) <= 1)%Z /\
  length trX + length vaX = length X /\
  length trY = length trX /\ length vaY = length vaX.
Proof.
  intros HXY H.
  destruct (stance_indices _ _ _ _ _ _ _ _ _ _ HXY H)
    as (ind_train & ind_val & Hperm & Hceil & Ha & Hc & Hb & Hd).
  apply Permutation_length in Hperm. rewrite length_app, length_seq in Hperm.
  apply Forall2_length in Ha, Hb, Hc, Hd.
  simpl. rewrite <- Hb, Hceil. split_and!; [done|apply ceil_py_round|lia..].
Qed.

(** C6. The training and the validation part of a successful call are
    taken at two lists of row numbers of the loaded training data that
    have no repetition, share no number, and together hold every row
    number. *)
Theorem stance_split_partition e data_dir topic X Y trX trY vaX vaY te :
  _stance (files e) (path_div data_dir trainfile) topic = Ok (X, Y) ->
  stance permutation empty_train_raises e data_dir topic
    = Ok ((trX, trY), (vaX, vaY), te) ->
  exists ind_train ind_val : list nat,
    NoDup ind_train /\ NoDup ind_val /\
    (forall i, i ∈ ind_train -> i ∉ ind_val) /\
    (forall i, i < length X <-> i ∈ ind_train \/ i ∈ ind_val) /\
    Forall2 (fun i x => X !! i = Some x) ind_train trX /\
    Forall2 (fun i y => exists c, Y !! i = Some c /\ y = Z.of_nat c) ind_train trY /\
    Forall2 (fun i x => X !! i = Some x) ind_val vaX /\
    Forall2 (fun i y => exists c, Y !! i = Some c /\ y = Z.of_nat c) ind_val vaY.
Proof.
  intros HXY H.
  destruct (stance_indices _ _ _ _ _ _ _ _ _ _ HXY H)
    as (ind_train & ind_val & Hperm & _ & Ha & Hc & Hb & Hd).
  exists ind_train, ind_val.
  assert (NoDup (ind_val ++ ind_train)) as Hnd.
  { rewrite Hperm. apply NoDup_seq. }
  apply NoDup_app in Hnd as (Hnd1 & Hdisj & Hnd2).
  split_and!; try done.
  - intros i Hi Hi'. by apply (Hdisj i).
  - intros i. rewrite <- elem_of_app, (comm _ ind_train), Hperm, elem_of_seq. lia.
Qed.

End split_claims.

(** The only exceptions of [train_test_split]. *)
Lemma train_test_split_Err {A B} permutation empty_train_raises
    (X : list A) (Y : list B) f s e :
  train_test_split permutation empty_train_raises X Y f s = Err e ->
  e = ValueError \/ e = IndexError.
Proof.
  assert (forall C (a : list C) idx e', safe_indexing a idx = Err e' -> e' = IndexError)
    as Hidx.
  { intros C a idx e' H. apply mapM_Err_inv in H as (_ & i & _ & _ & _ & Hi).
    destruct (a !! i); congruence. }
  unfold train_test_split, _validate_shuffle_split, check_random_state.
  case_bool_decide; [|intros [= <-]; by left].
  destruct (_ || _); [intros [= <-]; by left|].
  destruct (_ && _); [intros [= <-]; by left|]. simpl.
  case_bool_decide; [|intros [= <-]; by left]. simpl.
  repeat match goal with
  | |- context [safe_indexing ?a ?idx] =>
      let Hs := fresh "Hs" in
      destruct (safe_indexing a idx) eqn:Hs; simpl;
      [|apply Hidx in Hs; intros [= <-]; by right]
  end.
  done.
Qed.

(** [stance] reads the global [seed]: without it the call raises
    [NameError], which is none of the exceptions of the split. *)
Lemma stance_seed_unbound permutation empty_train_raises e data_dir topic :
  seed e = None ->
  stance permutation empty_train_raises e data_dir topic <> Err (NameError "seed") ->
  ~ is_Ok (_stance (files e) (path_div data_dir trainfile) topic) \/
  ~ is_Ok (_stance (files e) (path_div data_dir testfile) topic).
Proof.
  intros Hseed H. unfold stance in H. rewrite Hseed in H.
  destruct (_stance _ (path_div _ trainfile) _) as [[X Y]|]; [|left; by intros [? [=]]].
  destruct (_stance _ (path_div _ testfile) _) as [[teX teY]|]; [|right; by intros [? [=]]].
  done.
Qed.

Lemma stance_seed_bound_no_NameError permutation empty_train_raises e data_dir topic s :
  seed e = Some s ->
  is_Ok (_stance (files e) (path_div data_dir trainfile) topic) ->
  is_Ok (_stance (files e) (path_div data_dir testfile) topic) ->
  stance permutation empty_train_raises e data_dir topic <> Err (NameError "seed").
Proof.
  intros Hseed [[X Y] HXY] [[teX teY] Hte]. unfold stance.
  rewrite HXY, Hte, Hseed. simpl.
  destruct (train_test_split _ _ _ _ _ _) as [[[[a b] c] d]|e'] eqn:Hsplit; simpl.
  - by repeat destruct (append_loop _ _).
  - apply train_test_split_Err in Hsplit as [->| ->]; done.
Qed.

(** C1, as the code has it. The training and validation parts that
    [stance] returns are determined by the loaded training data [(X, Y)] and
    the global variable [seed], which the call reads: two successful calls
    that load the same [(X, Y)] under the same value of [seed] return the same
    two parts, whatever else differs between them. *)
Theorem stance_partition_determined permutation empty_train_raises
    e1 e2 d1 d2 t1 t2 tr1 va1 te1 tr2 va2 te2 :
  seed e1 = seed e2 ->
  _stance (files e1) (path_div d1 trainfile) t1
    = _stance (files e2) (path_div d2 trainfile) t2 ->
  stance permutation empty_train_raises e1 d1 t1 = Ok (tr1, va1, te1) ->
  stance permutation empty_train_raises e2 d2 t2 = Ok (tr2, va2, te2) ->
  tr1 = tr2 /\ va1 = va2.
Proof.
  intros Hseed Hload H1 H2.
  destruct tr1 as [trX1 trY1], va1 as [vaX1 vaY1], tr2 as [trX2 trY2], va2 as [vaX2 vaY2].
  apply stance_Ok_inv in H1
    as (X1 & Y1 & ? & s1 & HXY1 & _ & Hs1 & c1 & d1' & Hsplit1 & -> & ->).
  apply stance_Ok_inv in H2
    as (X2 & Y2 & ? & s2 & HXY2 & _ & Hs2 & c2 & d2' & Hsplit2 & -> & ->).
  rewrite HXY1, HXY2 in Hload. injection Hload as <- <-.
  rewrite Hs1, Hs2 in Hseed. injection Hseed as <-.
  rewrite Hsplit1 in Hsplit2. by injection Hsplit2 as <- <- <- <-.
Qed.

(** C3, as the code has it. [stance] loads the test file with [_stance],
    labels included: a call returns only when the test file has a [Stance]
    column whose entry on every retained row is one of the four names. The
    labels are dropped, the test part is the texts alone. *)
Theorem stance_test_file_labels permutation empty_train_raises
    e data_dir topic tr va te :
  stance permutation empty_train_raises e data_dir topic = Ok (tr, va, te) ->
  exists df st teY,
    files e !! path_div data_dir testfile = Some df /\
    df !! "Stance" = Some st /\
    _stance (files e) (path_div data_dir testfile) topic = Ok (te, teY) /\
    forall n, frame_rows df n ->
      Forall (fun i => exists s, st !! i = Some s /\ recognized s) (kept_rows df topic n).
Proof.
  destruct tr as [trX trY], va as [vaX vaY]. intros H.
  apply stance_Ok_inv in H as (_ & _ & teY & _ & _ & Hte & _).
  pose proof Hte as Hinv.
  apply _stance_Ok_inv in Hinv as (df & tweet & cleaned & st & Hdf & _ & _ & Hst & _).
  exists df, st, teY. split_and!; try done.
  intros n Hn.
  destruct (_stance_rows _ _ _ _ _ _ _ Hdf Hn Hte) as (_ & st' & _ & Hst' & _ & HY).
  rewrite Hst in Hst'. injection Hst' as <-.
  apply Forall_forall. intros i Hi.
  apply list_elem_of_lookup in Hi as [k Hk].
  destruct (Forall2_lookup_l _ _ _ _ _ HY Hk) as (y & _ & s & Hs & Hy).
  exists s. split; [done|]. apply recognized_label_code. eauto.
Qed.


(** ** The sample data *)

Lemma rot_permutation_spec (s : Z) (n : nat) : rot_permutation s n ≡ₚ seq 0 n.
Proof.
  unfold rot_permutation, rotate. rewrite (comm (++)). by rewrite take_drop.
Qed.

Lemma frame_of_rows (tweet target stance_col : list cell) (n : nat) :
  length tweet = n -> length target = n -> length stance_col = n ->
  frame_rows (frame_of tweet target stance_col) n.
Proof.
  intros H1 H2 H3 name col. unfold frame_of.
  rewrite !lookup_insert. repeat case_decide; rewrite ?lookup_empty; congruence.
Qed.

Lemma not_recognized_MAYBE : ~ recognized (Str "MAYBE").
Proof. intros [i Hi]%recognized_label_code. inversion Hi. Qed.

(** ** Runs *)

Lemma _stance_aligned_in_row_order_witness :
  let files := data_files mixed_frame one_test in
  let path := path_div "data" trainfile in
  let X := [Str "caf #SemST"; Str "last"] in
  let Y := [1; 3] in
  files !! path = Some mixed_frame /\
  frame_rows mixed_frame 4 /\
  _stance files path (Some "Atheism") = Ok (X, Y) /\
  length X = length Y /\
  exists tweet st,
    mixed_frame !! "Tweet" = Some tweet /\ mixed_frame !! "Stance" = Some st /\
    StronglySorted lt (kept_rows mixed_frame (Some "Atheism") 4) /\
    Forall2 (fun i x => exists text, tweet !! i = Some (Str text) /\ x = Str (clean_ascii text))
            (kept_rows mixed_frame (Some "Atheism") 4) X /\
    Forall2 (fun i y => exists s, st !! i = Some s /\ label_code s y)
            (kept_rows mixed_frame (Some "Atheism") 4) Y.
Proof.
  assert (data_files mixed_frame one_test !! path_div "data" trainfile = Some mixed_frame)
    as H1 by (vm_compute; reflexivity).
  assert (frame_rows mixed_frame 4) as H2 by (by apply frame_of_rows).
  assert (_stance (data_files mixed_frame one_test) (path_div "data" trainfile)
            (Some "Atheism") = Ok ([Str "caf #SemST"; Str "last"], [1; 3]))
    as H3 by (vm_compute; reflexivity).
  exact (conj H1 (conj H2 (conj H3
    (_stance_aligned_in_row_order _ _ _ _ _ _ _ H1 H2 H3)))).
Defined.

Lemma clean_ascii_strips_high_chars_witness :
  let text := "caf" +:+ e_acute +:+ " #SemST" in
  let files := data_files mixed_frame one_test in
  let path := path_div "data" trainfile in
  let tweet := [Str text; Str "plain"; Str "third"; Str "last"] in
  let X := [Str "caf #SemST"; Str "last"] in
  (iter_str (clean_ascii text) = filter (fun i => ord i < 128) (iter_str text) /\
   seven_bit (clean_ascii text) /\
   (seven_bit "plain" -> clean_ascii "plain" = "plain")) /\
  files !! path = Some mixed_frame /\
  mixed_frame !! "Tweet" = Some tweet /\
  _stance files path (Some "Atheism") = Ok (X, [1; 3]) /\
  Forall (fun x => exists text, Str text ∈ tweet /\ x = Str (clean_ascii text) /\
                                seven_bit (clean_ascii text)) X.
Proof.
  destruct clean_ascii_strips_high_chars as [Htext Hload].
  assert (data_files mixed_frame one_test !! path_div "data" trainfile = Some mixed_frame)
    as H1 by (vm_compute; reflexivity).
  assert (mixed_frame !! "Tweet"
          = Some [Str ("caf" +:+ e_acute +:+ " #SemST"); Str "plain"; Str "third"; Str "last"])
    as H2 by (vm_compute; reflexivity).
  assert (_stance (data_files mixed_frame one_test) (path_div "data" trainfile)
            (Some "Atheism") = Ok ([Str "caf #SemST"; Str "last"], [1; 3]))
    as H3 by (vm_compute; reflexivity).
  split_and!.
  - apply (Htext ("caf" +:+ e_acute +:+ " #SemST")).
  - apply (Htext ("caf" +:+ e_acute +:+ " #SemST")).
  - apply (Htext "plain").
  - exact H1.
  - exact H2.
  - exact H3.
  - exact (Hload _ _ _ _ _ _ _ H1 H2 H3).
Defined.

Lemma clean_ascii_writes_Tweet_only_witness :
  let files := data_files mixed_frame one_test in
  let path := path_div "data" trainfile in
  let topic := "Ath" +:+ e_acute +:+ "isme" in
  files !! path = Some mixed_frame /\
  _stance files path (Some topic) = Ok ([Str "plain"], [0]) /\
  exists tweet cleaned st,
    mixed_frame !! "Tweet" = Some tweet /\
    apply_clean_ascii tweet = Ok cleaned /\
    setitem mixed_frame "Tweet" cleaned !! "Tweet" = Some cleaned /\
    (forall name, name <> "Tweet" ->
       setitem mixed_frame "Tweet" cleaned !! name = mixed_frame !! name) /\
    mixed_frame !! "Stance" = Some st /\
    exists tg, mixed_frame !! "Target" = Some tg /\
      [Str "plain"] = select (eq_str tg topic) cleaned /\
      mapM class_num (select (eq_str tg topic) st) = Ok [0].
Proof.
  assert (data_files mixed_frame one_test !! path_div "data" trainfile = Some mixed_frame)
    as H1 by (vm_compute; reflexivity).
  assert (_stance (data_files mixed_frame one_test) (path_div "data" trainfile)
            (Some ("Ath" +:+ e_acute +:+ "isme")) = Ok ([Str "plain"], [0]))
    as H2 by (vm_compute; reflexivity).
  exact (conj H1 (conj H2 (clean_ascii_writes_Tweet_only _ _ _ _ _ _ H1 H2))).
Defined.

(** The topic is matched against the [Target] as read: the cleaned form of a
    topic name does not match it, and a [Stance] with a character outside
    the 7-bit range is not cleaned into a name of the set. *)
Example raw_Target_and_Stance :
  let files := data_files mixed_frame one_test in
  let path := path_div "data" trainfile in
  _stance files path (Some ("Ath" +:+ e_acute +:+ "isme")) = Ok ([Str "plain"], [0]) /\
  _stance files path (Some (clean_ascii ("Ath" +:+ e_acute +:+ "isme"))) = Ok ([], []) /\
  _stance (data_files (frame_of [Str "a"] [Str "Atheism"] [Str ("FAVOR" +:+ e_acute)])
                      one_test) path None
    = Err (KeyError (Str ("FAVOR" +:+ e_acute))).
Proof. by vm_compute. Qed.

Lemma stance_partition_determined_witness :
  let e1 := sample_env (Some 42%Z) one_test in
  let e2 := sample_env (Some 42%Z) test_other_topic in
  let tr := ([Str "t1"; Str "t2"; Str "t3"; Str "t4"; Str "t5"; Str "t6"; Str "t7"; Str "t8"],
             [0; 0; 0; 0; 0; 1; 1; 1]%Z) in
  let va := ([Str "t9"; Str "t0"], [1; 0]%Z) in
  seed e1 = seed e2 /\
  _stance (files e1) (path_div "data" trainfile) None
    = _stance (files e2) (path_div "data" trainfile) None /\
  stance rot_permutation true e1 "data" None = Ok (tr, va, [Str "u0"]) /\
  stance rot_permutation true e2 "data" None = Ok (tr, va, [Str "u0"]) /\
  tr = tr /\ va = va.
Proof.
  assert (seed (sample_env (Some 42%Z) one_test)
          = seed (sample_env (Some 42%Z) test_other_topic)) as H1 by reflexivity.
  assert (_stance (files (sample_env (Some 42%Z) one_test)) (path_div "data" trainfile) None
          = _stance (files (sample_env (Some 42%Z) test_other_topic))
              (path_div "data" trainfile) None) as H2 by (vm_compute; reflexivity).
  assert (stance rot_permutation true (sample_env (Some 42%Z) one_test) "data" None
          = Ok (([Str "t1"; Str "t2"; Str "t3"; Str "t4"; Str "t5"; Str "t6"; Str "t7"; Str "t8"],
                 [0; 0; 0; 0; 0; 1; 1; 1]%Z),
                ([Str "t9"; Str "t0"], [1; 0]%Z), [Str "u0"]))
    as H3 by (vm_compute; reflexivity).
  assert (stance rot_permutation true (sample_env (Some 42%Z) test_other_topic) "data" None
          = Ok (([Str "t1"; Str "t2"; Str "t3"; Str "t4"; Str "t5"; Str "t6"; Str "t7"; Str "t8"],
                 [0; 0; 0; 0; 0; 1; 1; 1]%Z),
                ([Str "t9"; Str "t0"], [1; 0]%Z), [Str "u0"]))
    as H4 by (vm_compute; reflexivity).
  exact (conj H1 (conj H2 (conj H3 (conj H4
    (stance_partition_determined _ _ _ _ _ _ _ _ _ _ _ _ _ _ H1 H2 H3 H4))))).
Defined.

Lemma stance_test_file_labels_witness :
  let e := sample_env (Some 42%Z) one_test in
  let tr := ([Str "t1"; Str "t2"; Str "t3"; Str "t4"; Str "t5"; Str "t6"; Str "t7"; Str "t8"],
             [0; 0; 0; 0; 0; 1; 1; 1]%Z) in
  let va := ([Str "t9"; Str "t0"], [1; 0]%Z) in
  stance rot_permutation true e "data" None = Ok (tr, va, [Str "u0"]) /\
  exists df st teY,
    files e !! path_div "data" testfile = Some df /\
    df !! "Stance" = Some st /\
    _stance (files e) (path_div "data" testfile) None = Ok ([Str "u0"], teY) /\
    forall n, frame_rows df n ->
      Forall (fun i => exists s, st !! i = Some s /\ recognized s) (kept_rows df None n).
Proof.
  assert (stance rot_permutation true (sample_env (Some 42%Z) one_test) "data" None
          = Ok (([Str "t1"; Str "t2"; Str "t3"; Str "t4"; Str "t5"; Str "t6"; Str "t7"; Str "t8"],
                 [0; 0; 0; 0; 0; 1; 1; 1]%Z),
                ([Str "t9"; Str "t0"], [1; 0]%Z), [Str "u0"]))
    as H by (vm_compute; reflexivity).
  exact (conj H (stance_test_file_labels _ _ _ _ _ _ _ _ H)).
Defined.

Lemma stance_split_sizes_witness :
  let e := sample_env (Some 42%Z) one_test in
  let X := Str <$> ["t0";"t1";"t2";"t3";"t4";"t5";"t6";"t7";"t8";"t9"] in
  let Y := [0; 0; 0; 0; 0; 0; 1; 1; 1; 1] in
  let trX := [Str "t1"; Str "t2"; Str "t3"; Str "t4"; Str "t5"; Str "t6"; Str "t7"; Str "t8"] in
  let trY := [0; 0; 0; 0; 0; 1; 1; 1]%Z in
  let vaX := [Str "t9"; Str "t0"] in
  let vaY := [1; 0]%Z in
  (forall s n, rot_permutation s n ≡ₚ seq 0 n) /\
  _stance (files e) (path_div "data" trainfile) None = Ok (X, Y) /\
  stance rot_permutation true e "data" None = Ok ((trX, trY), (vaX, vaY), [Str "u0"]) /\
  Z.of_nat (length vaX) = ceil ((1 # 5) * inject_Z 10) /\
  (Z.abs (Z.of_nat (length vaX) - py_round ((1 # 5) * inject_Z 10)) <= 1)%Z /\
  length trX + length vaX = length X /\
  length trY = length trX /\ length vaY = length vaX.
Proof.
  assert (_stance (files (sample_env (Some 42%Z) one_test)) (path_div "data" trainfile) None
          = Ok (Str <$> ["t0";"t1";"t2";"t3";"t4";"t5";"t6";"t7";"t8";"t9"],
                [0; 0; 0; 0; 0; 0; 1; 1; 1; 1]))
    as H1 by (vm_compute; reflexivity).
  assert (stance rot_permutation true (sample_env (Some 42%Z) one_test) "data" None
          = Ok (([Str "t1"; Str "t2"; Str "t3"; Str "t4"; Str "t5"; Str "t6"; Str "t7"; Str "t8"],
                 [0; 0; 0; 0; 0; 1; 1; 1]%Z),
                ([Str "t9"; Str "t0"], [1; 0]%Z), [Str "u0"]))
    as H2 by (vm_compute; reflexivity).
  exact (conj rot_permutation_spec (conj H1 (conj H2
    (stance_split_sizes rot_permutation true rot_permutation_spec
       _ _ _ _ _ _ _ _ _ _ H1 H2)))).
Defined.

Lemma stance_split_partition_witness :
  let e := sample_env (Some 42%Z) one_test in
  let X := Str <$> ["t0";"t1";"t2";"t3";"t4";"t5";"t6";"t7";"t8";"t9"] in
  let Y := [0; 0; 0; 0; 0; 0; 1; 1; 1; 1] in
  let trX := [Str "t1"; Str "t2"; Str "t3"; Str "t4"; Str "t5"; Str "t6"; Str "t7"; Str "t8"] in
  let trY := [0; 0; 0; 0; 0; 1; 1; 1]%Z in
  let vaX := [Str "t9"; Str "t0"] in
  let vaY := [1; 0]%Z in
  (forall s n, rot_permutation s n ≡ₚ seq 0 n) /\
  _stance (files e) (path_div "data" trainfile) None = Ok (X, Y) /\
  stance rot_permutation true e "data" None = Ok ((trX, trY), (vaX, vaY), [Str "u0"]) /\
  exists ind_train ind_val : list nat,
    NoDup ind_train /\ NoDup ind_val /\
    (forall i, i ∈ ind_train -> i ∉ ind_val) /\
    (forall i, i < length X <-> i ∈ ind_train \/ i ∈ ind_val) /\
    Forall2 (fun i x => X !! i = Some x) ind_train trX /\
    Forall2 (fun i y => exists c, Y !! i = Some c /\ y = Z.of_nat c) ind_train trY /\
    Forall2 (fun i x => X !! i = Some x) ind_val vaX /\
    Forall2 (fun i y => exists c, Y !! i = Some c /\ y = Z.of_nat c) ind_val vaY.
Proof.
  assert (_stance (files (sample_env (Some 42%Z) one_test)) (path_div "data" trainfile) None
          = Ok (Str <$> ["t0";"t1";"t2";"t3";"t4";"t5";"t6";"t7";"t8";"t9"],
                [0; 0; 0; 0; 0; 0; 1; 1; 1; 1]))
    as H1 by (vm_compute; reflexivity).
  assert (stance rot_permutation true (sample_env (Some 42%Z) one_test) "data" None
          = Ok (([Str "t1"; Str "t2"; Str "t3"; Str "t4"; Str "t5"; Str "t6"; Str "t7"; Str "t8"],
                 [0; 0; 0; 0; 0; 1; 1; 1]%Z),
                ([Str "t9"; Str "t0"], [1; 0]%Z), [Str "u0"]))
    as H2 by (vm_compute; reflexivity).
  exact (conj rot_permutation_spec (conj H1 (conj H2
    (stance_split_partition rot_permutation true rot_permutation_spec
       _ _ _ _ _ _ _ _ _ _ H1 H2)))).
Defined.


(** ** Runs that the design document excludes *)

(** C1. Two calls with the same arguments on the same files differ when
    the global [seed] differs: with [seed] unbound the call raises
    [NameError] where the other returns or raises something else, whatever
    the generator; and with the sample generator the seeds 42 and 43 give
    different parts. *)
Lemma stance_reads_ambient_seed :
  files (sample_env (Some 42%Z) one_test) = files (sample_env None one_test) /\
  files (sample_env (Some 42%Z) one_test) = files (sample_env (Some 43%Z) one_test) /\
  ~ (exists permutation empty_train_raises,
       stance permutation empty_train_raises (sample_env (Some 42%Z) one_test) "data" None
       = stance permutation empty_train_raises (sample_env None one_test) "data" None) /\
  stance rot_permutation true (sample_env (Some 42%Z) one_test) "data" None
  <> stance rot_permutation true (sample_env (Some 43%Z) one_test) "data" None.
Proof.
  split_and!; [done|done| |by vm_compute].
  intros (permutation & empty_train_raises & H).
  assert (stance permutation empty_train_raises (sample_env None one_test) "data" None
          = Err (NameError "seed")) as Hunbound by (vm_compute; reflexivity).
  rewrite Hunbound in H. revert H.
  apply (stance_seed_bound_no_NameError _ _ _ _ _ 42%Z); [done| |];
    vm_compute; eexists; reflexivity.
Qed.

(** C3. On a test file without a [Stance] column, or with empty [Stance]
    fields, [stance] raises, whatever the generator. *)
Lemma stance_rejects_unlabelled_test :
  ~ (exists permutation empty_train_raises,
       is_Ok (stance permutation empty_train_raises
                (sample_env (Some 42%Z) test_without_stance) "data" None)) /\
  ~ (exists permutation empty_train_raises,
       is_Ok (stance permutation empty_train_raises
                (sample_env (Some 42%Z) test_empty_stance) "data" None)) /\
  stance rot_permutation true (sample_env (Some 42%Z) test_without_stance) "data" None
    = Err (AttributeError "Stance") /\
  stance rot_permutation true (sample_env (Some 42%Z) test_empty_stance) "data" None
    = Err (KeyError NaN).
Proof.
  split_and!; [| |by vm_compute..].
  - intros (permutation & empty_train_raises & r & H). vm_compute in H. discriminate.
  - intros (permutation & empty_train_raises & r & H). vm_compute in H. discriminate.
Qed.

(** C4. A topic that no row has gives two empty sequences from [_stance],
    and an empty test part from [stance], and no exception. *)
Lemma _stance_returns_empty_sequences :
  _stance (data_files mixed_frame one_test) (path_div "data" trainfile)
          (Some "Climate Change is a Real Concern") = Ok ([], []) /\
  stance rot_permutation true (sample_env (Some 42%Z) test_other_topic) "data"
         (Some "Atheism")
  = Ok (([Str "t1"; Str "t2"; Str "t3"; Str "t4"; Str "t5"; Str "t6"; Str "t7"; Str "t8"],
         [0; 0; 0; 0; 0; 1; 1; 1]%Z),
        ([Str "t9"; Str "t0"], [1; 0]%Z), []) /\
  stance rot_permutation false (sample_env (Some 42%Z) test_other_topic) "data"
         (Some "Atheism")
  = Ok (([Str "t1"; Str "t2"; Str "t3"; Str "t4"; Str "t5"; Str "t6"; Str "t7"; Str "t8"],
         [0; 0; 0; 0; 0; 1; 1; 1]%Z),
        ([Str "t9"; Str "t0"], [1; 0]%Z), []).
Proof. by vm_compute. Qed.

(** * Further properties of the loader *)

(** ** The label dictionary *)

(** X1. The dictionary [class_nums] inverts the indexing of the list
    [stances]: a name has the code [i] exactly when it is the [i]-th name of
    the list, so a code is turned back into its name by [stances[i]]. *)
Theorem class_nums_inverts_stances (name : string) (i : nat) :
  class_nums !! name = Some i <-> stances !! i = Some name.
Proof.
  rewrite class_nums_Some. split.
  - by inversion 1.
  - unfold stances. intros H.
    do 4 (destruct i as [|i]; [injection H as <-; constructor|]). done.
Qed.

(** ** [clean_ascii] *)

Lemma clean_ascii_String (c : Ascii.ascii) (text : string) :
  clean_ascii (String c text)
  = if decide (ord c < 128) then String c (clean_ascii text) else clean_ascii text.
Proof.
  unfold clean_ascii.
  change (iter_str (String c text)) with (c :: iter_str text).
  rewrite filter_cons. destruct (decide (ord c < 128)); [|done].
  by rewrite fmap_cons, join_empty_cons.
Qed.

(** X2. Cleaning goes through concatenation: the cleaned form of two texts
    put together is the two cleaned forms put together, and the empty text
    stays empty. *)
Theorem clean_ascii_append (s t : string) :
  clean_ascii "" = "" /\
  clean_ascii (s +:+ t) = clean_ascii s +:+ clean_ascii t.
Proof.
  split; [done|].
  induction s as [|c s IH]; [done|].
  rewrite append_String, !clean_ascii_String.
  destruct (decide (ord c < 128)); [|done]. by rewrite append_String, IH.
Qed.

(** X3. Cleaning a second time changes nothing, a cleaned text is never
    longer than the text, and the texts that cleaning leaves as they are
    are those without a character of code point 128 or more. *)
Theorem clean_ascii_idempotent_shorter (text : string) :
  clean_ascii (clean_ascii text) = clean_ascii text /\
  String.length (clean_ascii text) <= String.length text /\
  (clean_ascii text = text <-> seven_bit text).
Proof.
  split_and!.
  - apply clean_ascii_id, clean_ascii_seven_bit.
  - induction text as [|c text IH]; [done|].
    rewrite clean_ascii_String. destruct (decide (ord c < 128)); simpl; lia.
  - split; [|apply clean_ascii_id].
    intros <-. apply clean_ascii_seven_bit.
Qed.

(** ** [_stance]: what is read, and when *)

Lemma apply_clean_ascii_NaN (col : list cell) :
  NaN ∈ col -> apply_clean_ascii col = Err TypeError.
Proof.
  unfold apply_clean_ascii. induction col as [|c col IH]; [by inversion 1|].
  intros Hc. destruct c as [text| | | |]; try done. simpl.
  rewrite IH; [done|]. by apply elem_of_cons in Hc as [?|?].
Qed.

(** X4. The tweets are cleaned before the rows are filtered: an empty
    [Tweet] field on any row of the file, a row of another topic included,
    makes [_stance] raise [TypeError], for every topic. *)
Theorem _stance_empty_tweet_raises files path topic df tweet :
  files !! path = Some df ->
  df !! "Tweet" = Some tweet ->
  NaN ∈ tweet ->
  _stance files path topic = Err TypeError.
Proof.
  intros Hdf Htw Hnan. unfold _stance, read_csv. rewrite Hdf. simpl.
  unfold getitem. rewrite Htw. simpl. by rewrite apply_clean_ascii_NaN.
Qed.

Lemma _stance_empty_tweet_raises_witness :
  let files := data_files empty_tweet_frame one_test in
  let path := path_div "data" trainfile in
  files !! path = Some empty_tweet_frame /\
  empty_tweet_frame !! "Tweet" = Some [Str "a"; NaN; Str "c"] /\
  NaN ∈ [Str "a"; NaN; Str "c"] /\
  _stance files path (Some "Atheism") = Err TypeError.
Proof.
  assert (data_files empty_tweet_frame one_test !! path_div "data" trainfile
          = Some empty_tweet_frame) as H1 by (vm_compute; reflexivity).
  assert (empty_tweet_frame !! "Tweet" = Some [Str "a"; NaN; Str "c"]) as H2
    by (vm_compute; reflexivity).
  assert (NaN ∈ [Str "a"; NaN; Str "c"]) as H3 by (right; left).
  exact (conj H1 (conj H2 (conj H3
    (_stance_empty_tweet_raises _ _ (Some "Atheism") _ _ H1 H2 H3)))).
Defined.

(** X5. Without a topic the [Target] column is not read: the result of
    [_stance] is the same whatever that column holds, and the same without
    the column. *)
Theorem _stance_no_topic_ignores_Target files path df (col : list cell) :
  _stance (<[path := <["Target" := col]> df]> files) path None
    = _stance (<[path := df]> files) path None /\
  _stance (<[path := delete "Target" df]> files) path None
    = _stance (<[path := df]> files) path None.
Proof.
  unfold _stance, read_csv. rewrite !lookup_insert_eq. simpl.
  unfold getitem. rewrite lookup_insert_ne, lookup_delete_ne by done.
  destruct (df !! "Tweet") as [tweet|]; [|done]. simpl.
  destruct (apply_clean_ascii tweet) as [cleaned|]; [|done]. simpl.
  unfold getattr, setitem. rewrite !lookup_insert_eq. simpl.
  rewrite !lookup_insert_ne, lookup_delete_ne by done. done.
Qed.

Lemma mapM_class_num_Ok (sel : list cell) :
  is_Ok (mapM class_num sel) <-> Forall recognized sel.
Proof.
  split.
  - intros [Y HY]. apply mapM_Ok in HY.
    apply Forall_forall. intros s Hs. apply list_elem_of_lookup in Hs as [k Hk].
    destruct (Forall2_lookup_l _ _ _ _ _ HY Hk) as (y & _ & Hy).
    apply recognized_label_code. exists y. by apply class_num_Ok.
  - induction 1 as [|s sel Hs _ [Y IH]]; [by exists []|].
    apply recognized_label_code in Hs as [y Hy]. apply class_num_Ok in Hy.
    exists (y :: Y). simpl. by rewrite Hy, IH.
Qed.

Lemma apply_clean_ascii_Ok_is_Str (col cleaned : list cell) :
  apply_clean_ascii col = Ok cleaned -> Forall is_Str col.
Proof.
  intros H%apply_clean_ascii_Ok. apply Forall_forall. intros c Hc.
  apply list_elem_of_lookup in Hc as [k Hk].
  destruct (Forall2_lookup_l _ _ _ _ _ H Hk) as (c' & _ & text & -> & _).
  by exists text.
Qed.

(** X6. When [_stance] returns, on a file that parses into the frame [df]:
    exactly when the frame has a [Tweet] column of strings, has a [Stance]
    column, has a [Target] column if a topic is given, and the [Stance] of
    every retained row is one of the four names. *)
Theorem _stance_returns_iff files path topic df :
  files !! path = Some df ->
  (is_Ok (_stance files path topic) <->
   exists tweet st,
     df !! "Tweet" = Some tweet /\ Forall is_Str tweet /\
     df !! "Stance" = Some st /\
     match topic with
     | None => Forall recognized st
     | Some t => exists tg, df !! "Target" = Some tg /\
                            Forall recognized (select (eq_str tg t) st)
     end).
Proof.
  intros Hdf. split.
  - intros [[X Y] H].
    apply _stance_Ok_inv in H as (df' & tweet & cleaned & st & Hdf' & Htw & Hcl & Hst & Htopic).
    rewrite Hdf in Hdf'. injection Hdf' as <-.
    exists tweet, st. split_and!; try done.
    + by eapply apply_clean_ascii_Ok_is_Str.
    + destruct topic as [t|].
      * destruct Htopic as (tg & Htg & _ & HY). exists tg. split; [done|].
        apply mapM_class_num_Ok. by eexists.
      * destruct Htopic as [_ HY]. apply mapM_class_num_Ok. by eexists.
  - intros (tweet & st & Htw & Hstr & Hst & Htopic).
    apply apply_clean_ascii_total in Hstr as [cleaned Hcl].
    destruct topic as [t|].
    + destruct Htopic as (tg & Htg & [Y HY]%mapM_class_num_Ok).
      exists (select (eq_str tg t) cleaned, Y).
      eapply _stance_Ok_intro; eauto.
    + apply mapM_class_num_Ok in Htopic as [Y HY].
      exists (cleaned, Y). eapply _stance_Ok_intro; eauto.
Qed.

Lemma _stance_returns_iff_witness :
  let files := data_files mixed_frame one_test in
  let path := path_div "data" trainfile in
  files !! path = Some mixed_frame /\
  is_Ok (_stance files path (Some "Atheism")) /\
  exists tweet st,
    mixed_frame !! "Tweet" = Some tweet /\ Forall is_Str tweet /\
    mixed_frame !! "Stance" = Some st /\
    exists tg, mixed_frame !! "Target" = Some tg /\
               Forall recognized (select (eq_str tg "Atheism") st).
Proof.
  assert (data_files mixed_frame one_test !! path_div "data" trainfile = Some mixed_frame)
    as H1 by (vm_compute; reflexivity).
  assert (is_Ok (_stance (data_files mixed_frame one_test) (path_div "data" trainfile)
                   (Some "Atheism"))) as H by (vm_compute; eexists; reflexivity).
  exact (conj H1 (conj H
    (proj1 (_stance_returns_iff _ _ (Some "Atheism") _ H1) H))).
Defined.

(** X8. The topic filter keeps a frame a frame: the columns of the result
    have the names of the columns of the input, each has as many entries as
    there are retained rows, and every entry of its [Target] column is the
    topic. *)
Theorem filter_topic_keeps_frame df t df' n :
  frame_rows df n ->
  filter_topic df (Some t) = Ok df' ->
  dom df' = dom df /\
  frame_rows df' (length (kept_rows df (Some t) n)) /\
  exists tg', df' !! "Target" = Some tg' /\ Forall (fun c => c = Str t) tg'.
Proof.
  intros Hn Hfilter.
  pose proof Hfilter as Hinv. apply filter_topic_Ok_inv in Hinv as (tg & Htg & Hdf').
  destruct (filter_topic_rows df t tg n Htg Hn) as (df'' & Hfilter' & Hnone & Hsome).
  rewrite Hfilter in Hfilter'. injection Hfilter' as <-.
  split_and!.
  - subst df'. unfold loc. apply dom_fmap_L.
  - intros name col' Hcol'.
    destruct (df !! name) as [col|] eqn:Hcol.
    + destruct (Hsome _ _ Hcol) as (col'' & Hcol'' & Hrows).
      rewrite Hcol' in Hcol''. injection Hcol'' as <-.
      symmetry. by eapply Forall2_length.
    + rewrite (Hnone _ Hcol) in Hcol'. done.
  - destruct (Hsome _ _ Htg) as (tg' & Htg' & Hrows).
    exists tg'. split; [done|].
    apply Forall_forall. intros c Hc. apply list_elem_of_lookup in Hc as [k Hk].
    destruct (Forall2_lookup_r _ _ _ _ _ Hrows Hk) as (i & Hi & Hc).
    assert (i ∈ kept_rows df (Some t) n) as Hin by (apply list_elem_of_lookup; eauto).
    apply elem_of_kept_rows in Hin as [_ (tg0 & Htg0 & Ht)].
    rewrite Htg in Htg0. injection Htg0 as <-. simpl in Hc. congruence.
Qed.

Lemma filter_topic_keeps_frame_witness :
  let df' := loc mixed_frame [true; false; false; true] in
  frame_rows mixed_frame 4 /\
  filter_topic mixed_frame (Some "Atheism") = Ok df' /\
  dom df' = dom mixed_frame /\
  frame_rows df' (length (kept_rows mixed_frame (Some "Atheism") 4)) /\
  exists tg', df' !! "Target" = Some tg' /\ Forall (fun c => c = Str "Atheism") tg'.
Proof.
  assert (frame_rows mixed_frame 4) as H1 by (by apply frame_of_rows).
  assert (filter_topic mixed_frame (Some "Atheism")
          = Ok (loc mixed_frame [true; false; false; true])) as H2 by reflexivity.
  exact (conj H1 (conj H2 (filter_topic_keeps_frame _ _ _ _ H1 H2))).
Defined.

(** ** [stance]: when it returns, and what *)

Lemma safe_indexing_total {A} (a : list A) (indices : list nat) :
  Forall (fun i => i < length a) indices -> is_Ok (safe_indexing a indices).
Proof.
  unfold safe_indexing. induction 1 as [|i indices Hi _ [out IH]]; [by exists []|].
  apply lookup_lt_is_Some in Hi as [x Hx].
  exists (x :: out). simpl. by rewrite Hx, IH.
Qed.

Lemma fifth_lt (n : nat) :
  2 <= n <-> n - Z.to_nat (ceil ((1 # 5) * inject_Z (Z.of_nat n))) <> 0.
Proof.
  rewrite ceil_fifth.
  assert (Z.to_nat ((Z.of_nat n + 4) / 5) = (n + 4) / 5) as ->.
  { rewrite <- (Nat2Z.id ((n + 4) / 5)). f_equal. rewrite Nat2Z.inj_div. f_equal. lia. }
  split; intros H.
  - assert ((n + 4) / 5 < n); [|lia]. apply Nat.Div0.div_lt_upper_bound. lia.
  - destruct n as [|[|n]]; [simpl in H; lia|vm_compute in H; lia|lia].
Qed.

Lemma _validate_shuffle_split_fifth (empty_train_raises : bool) (n : nat) :
  is_Ok (_validate_shuffle_split empty_train_raises n (1 # 5))
  <-> (empty_train_raises = true -> 2 <= n).
Proof.
  unfold _validate_shuffle_split.
  change (Qle_bool (1 # 5) 0 || Qle_bool 1 (1 # 5)) with false. cbv iota.
  destruct empty_train_raises; simpl.
  - case_bool_decide as Hn.
    + split; [by intros [? [=]]|]. intros H. apply fifth_lt in H; done.
    + split; [|by eexists]. intros _ _. by apply fifth_lt.
  - split; [done|]. by eexists.
Qed.

Section split_outcome.

Variable permutation : Z -> nat -> list nat.
Variable empty_train_raises : bool.
Hypothesis permutation_spec : forall s n, permutation s n ≡ₚ seq 0 n.

Lemma _iter_indices_in_range n n_train n_test s ind_train ind_test :
  _iter_indices permutation n n_train n_test s = (ind_train, ind_test) ->
  Forall (fun i => i < n) ind_train /\ Forall (fun i => i < n) ind_test.
Proof.
  intros [= <- <-].
  assert (Forall (fun i => i < n) (permutation s n)) as Hperm.
  { apply Forall_forall. intros i Hi. rewrite permutation_spec in Hi.
    apply elem_of_seq in Hi. lia. }
  split.
  - by apply Forall_take, Forall_drop.
  - by apply Forall_take.
Qed.

Lemma train_test_split_fifth_total {A B} (X : list A) (Y : list B) s :
  length X = length Y -> (0 <= s < 2 ^ 32)%Z ->
  (empty_train_raises = true -> 2 <= length X) ->
  is_Ok (train_test_split permutation empty_train_raises X Y (1 # 5) s).
Proof.
  intros Hlen Hs Hn. unfold train_test_split.
  rewrite bool_decide_eq_true_2 by done.
  apply _validate_shuffle_split_fifth in Hn as [[n_train n_test] ->]. simpl.
  unfold check_random_state. rewrite bool_decide_eq_true_2 by done. simpl.
  destruct (_iter_indices_in_range (length X) n_train n_test s _ _ eq_refl) as [Htr Hte].
  set (ind_train := take n_train _) in *. set (ind_test := take n_test _) in *.
  destruct (safe_indexing_total X ind_train Htr) as [a ->].
  destruct (safe_indexing_total X ind_test Hte) as [b ->].
  rewrite Hlen in Htr, Hte.
  destruct (safe_indexing_total Y ind_train Htr) as [c ->].
  destruct (safe_indexing_total Y ind_test Hte) as [d ->].
  by eexists.
Qed.

(** X9. When [stance] returns: exactly when both files load, into two
    arrays of one length for the training file, the global [seed] is bound
    to a seed of 32 bits, and, where the library refuses an empty training
    part, at least two training rows are loaded. *)
Theorem stance_returns_iff e data_dir topic :
  is_Ok (stance permutation empty_train_raises e data_dir topic) <->
  exists X Y teX teY s,
    _stance (files e) (path_div data_dir trainfile) topic = Ok (X, Y) /\
    _stance (files e) (path_div data_dir testfile) topic = Ok (teX, teY) /\
    seed e = Some s /\ (0 <= s < 2 ^ 32)%Z /\
    length X = length Y /\
    (empty_train_raises = true -> 2 <= length X).
Proof.
  split.
  - intros [[[[trX trY] [vaX vaY]] te] H].
    apply stance_Ok_inv in H
      as (X & Y & teY & s & HXY & Hte & Hseed & tr_sent & va_sent & Hsplit & _).
    apply train_test_split_Ok_inv in Hsplit as (n_train & n_test & Hlen & Hv & Hs & _).
    exists X, Y, te, teY, s. do 5 (split; [done|]).
    apply _validate_shuffle_split_fifth. by eexists.
  - intros (X & Y & teX & teY & s & HXY & Hte & Hseed & Hs & Hlen & Hn).
    unfold stance. rewrite HXY, Hte, Hseed. simpl.
    destruct (train_test_split_fifth_total X Y s Hlen Hs Hn)
      as [[[[a b] c] d] ->]. simpl.
    repeat destruct (append_loop _ _). by eexists.
Qed.

End split_outcome.

Lemma stance_returns_iff_witness :
  let e := sample_env (Some 42%Z) one_test in
  (forall s n, rot_permutation s n ≡ₚ seq 0 n) /\
  is_Ok (stance rot_permutation true e "data" None) /\
  exists X Y teX teY s,
    _stance (files e) (path_div "data" trainfile) None = Ok (X, Y) /\
    _stance (files e) (path_div "data" testfile) None = Ok (teX, teY) /\
    seed e = Some s /\ (0 <= s < 2 ^ 32)%Z /\
    length X = length Y /\
    (true = true -> 2 <= length X).
Proof.
  assert (is_Ok (stance rot_permutation true (sample_env (Some 42%Z) one_test) "data" None))
    as H by (vm_compute; eexists; reflexivity).
  exact (conj rot_permutation_spec (conj H
    (proj1 (stance_returns_iff rot_permutation true rot_permutation_spec _ _ _) H))).
Defined.

(** X10. The labels that [stance] returns are codes of the four names,
    numbers from 0 to 3, so the conversion to 32 bits loses nothing, and each
    label array is as long as its text list. The generator plays no part. *)
Theorem stance_labels_in_range permutation empty_train_raises
    e data_dir topic trX trY vaX vaY te :
  stance permutation empty_train_raises e data_dir topic
    = Ok ((trX, trY), (vaX, vaY), te) ->
  Forall (fun y => (0 <= y <= 3)%Z) trY /\
  Forall (fun y => (0 <= y <= 3)%Z) vaY /\
  length trY = length trX /\ length vaY = length vaX.
Proof.
  intros H.
  apply stance_Ok_inv in H
    as (X & Y & teY & s & HXY & _ & _ & tr_sent & va_sent & Hsplit & -> & ->).
  apply train_test_split_Ok_inv in Hsplit as (n_train & n_test & _ & _ & _ & Hidx).
  destruct (_iter_indices _ _ _ _ _) as [ind_train ind_test].
  destruct Hidx as (Ha & Hb & Hc & Hd).
  pose proof (_stance_codes_lt _ _ _ _ _ HXY) as HY.
  assert (forall idx out, Forall2 (fun i y => Y !! i = Some y) idx out ->
            Forall (fun y => (0 <= y <= 3)%Z) (Z.of_nat <$> out)) as Hrange.
  { intros idx out Hout. apply Forall_fmap, Forall_forall. intros y Hy.
    apply list_elem_of_lookup in Hy as [k Hk].
    destruct (Forall2_lookup_r _ _ _ _ _ Hout Hk) as (i & _ & Hi).
    assert (y < 4); [|simpl; lia].
    eapply Forall_forall in HY; [exact HY|]. apply list_elem_of_lookup. eauto. }
  split_and!; eauto.
  - rewrite length_fmap, <- (Forall2_length _ _ _ Hc). by apply Forall2_length in Ha.
  - rewrite length_fmap, <- (Forall2_length _ _ _ Hd). by apply Forall2_length in Hb.
Qed.

Lemma stance_labels_in_range_witness :
  let e := sample_env (Some 42%Z) one_test in
  let trX := [Str "t1"; Str "t2"; Str "t3"; Str "t4"; Str "t5"; Str "t6"; Str "t7"; Str "t8"] in
  let trY := [0; 0; 0; 0; 0; 1; 1; 1]%Z in
  let vaX := [Str "t9"; Str "t0"] in
  let vaY := [1; 0]%Z in
  stance rot_permutation true e "data" None = Ok ((trX, trY), (vaX, vaY), [Str "u0"]) /\
  Forall (fun y => (0 <= y <= 3)%Z) trY /\
  Forall (fun y => (0 <= y <= 3)%Z) vaY /\
  length trY = length trX /\ length vaY = length vaX.
Proof.
  assert (stance rot_permutation true (sample_env (Some 42%Z) one_test) "data" None
          = Ok (([Str "t1"; Str "t2"; Str "t3"; Str "t4"; Str "t5"; Str "t6"; Str "t7"; Str "t8"],
                 [0; 0; 0; 0; 0; 1; 1; 1]%Z),
                ([Str "t9"; Str "t0"], [1; 0]%Z), [Str "u0"]))
    as H by (vm_compute; reflexivity).
  exact (conj H (stance_labels_in_range _ _ _ _ _ _ _ _ _ _ H)).
Defined.

Lemma Forall2_lookup_fmap {A} (P : list A) (idx : list nat) (L : list A) :
  Forall2 (fun i p => P !! i = Some p) idx L ->
  Some <$> L = (fun i => P !! i) <$> idx.
Proof.
  induction 1 as [|i p idx L Hp _ IH]; [done|]. by rewrite !fmap_cons, Hp, IH.
Qed.

Lemma Forall2_lookup_Permutation {A} (P : list A) (idx : list nat) (L : list A) :
  Forall2 (fun i p => P !! i = Some p) idx L ->
  idx ≡ₚ seq 0 (length P) ->
  L ≡ₚ P.
Proof.
  intros HL%Forall2_lookup_fmap Hperm.
  pose proof (Forall2_lookup_fmap _ _ _ (Forall2_seq_lookup P)) as HP.
  assert (Some <$> L ≡ₚ Some <$> P) as Hsome.
  { rewrite HL, HP. by apply fmap_Permutation. }
  apply Permutation_map_inv in Hsome as (L' & HL' & HP').
  apply (inj (fmap Some)) in HL'. subst L'. done.
Qed.

Lemma Forall2_lookup_zip {A B} (X : list A) (Y : list B) idx a b :
  Forall2 (fun i x => X !! i = Some x) idx a ->
  Forall2 (fun i y => Y !! i = Some y) idx b ->
  Forall2 (fun i p => zip X Y !! i = Some p) idx (zip a b).
Proof.
  intros Ha. revert b. induction Ha as [|i x idx a Hx _ IH]; intros b; inversion 1; subst.
  - constructor.
  - simpl. constructor; [by apply lookup_zip_Some|]. by apply IH.
Qed.

Section split_pairs.

Variable permutation : Z -> nat -> list nat.
Variable empty_train_raises : bool.
Hypothesis permutation_spec : forall s n, permutation s n ≡ₚ seq 0 n.

(** X11. No example is lost, repeated or relabelled by the split: the
    pairs of a text and its label in the training part, followed by those in
    the validation part, are a rearrangement of the loaded pairs, so each
    class has as many examples after the split as before. *)
Theorem stance_split_rearranges_pairs e data_dir topic X Y trX trY vaX vaY te :
  _stance (files e) (path_div data_dir trainfile) topic = Ok (X, Y) ->
  stance permutation empty_train_raises e data_dir topic
    = Ok ((trX, trY), (vaX, vaY), te) ->
  zip trX trY ++ zip vaX vaY ≡ₚ zip X (Z.of_nat <$> Y).
Proof.
  intros HXY H.
  assert (length X = length Y) as Hlen.
  { apply stance_Ok_inv in H as (X' & Y' & ? & ? & HXY' & _ & _ & ? & ? & Hsplit & _).
    rewrite HXY in HXY'. injection HXY' as <- <-.
    by apply train_test_split_Ok_inv in Hsplit as (? & ? & ? & _). }
  destruct (stance_indices permutation empty_train_raises permutation_spec
              _ _ _ _ _ _ _ _ _ _ HXY H)
    as (ind_train & ind_val & Hperm & _ & Ha & Hc & Hb & Hd).
  assert (forall idx out,
            Forall2 (fun i y => exists c, Y !! i = Some c /\ y = Z.of_nat c) idx out ->
            Forall2 (fun i y => (Z.of_nat <$> Y) !! i = Some y) idx out) as Hz.
  { intros idx out Hout. eapply Forall2_impl; [exact Hout|].
    intros i y (c & Hc' & ->). simpl. by rewrite list_lookup_fmap, Hc'. }
  apply (Forall2_lookup_Permutation _ (ind_train ++ ind_val)).
  - apply Forall2_app; apply Forall2_lookup_zip; auto.
  - rewrite length_zip_with, length_fmap, <- Hlen, Nat.min_id.
    by rewrite (comm (++)).
Qed.

(** X12. On a non-empty training file a call that returns gives a
    non-empty validation part, and the training part is empty exactly when
    one row is loaded at most. *)
Theorem stance_parts_empty e data_dir topic X Y trX trY vaX vaY te :
  _stance (files e) (path_div data_dir trainfile) topic = Ok (X, Y) ->
  stance permutation empty_train_raises e data_dir topic
    = Ok ((trX, trY), (vaX, vaY), te) ->
  (X <> [] -> vaX <> []) /\
  (trX = [] <-> length X <= 1).
Proof.
  intros HXY H.
  destruct (stance_indices permutation empty_train_raises permutation_spec
              _ _ _ _ _ _ _ _ _ _ HXY H)
    as (ind_train & ind_val & Hperm & Hceil & Ha & _ & Hb & _).
  apply Permutation_length in Hperm. rewrite length_app, length_seq in Hperm.
  apply Forall2_length in Ha, Hb.
  assert (length vaX = Z.to_nat (ceil ((1 # 5) * inject_Z (Z.of_nat (length X)))))
    as Hva by (rewrite <- Hb, <- Hceil; lia).
  pose proof (fifth_lt (length X)) as Hfifth.
  split.
  - intros HX ->. simpl in Hva. rewrite ceil_fifth in Hva.
    destruct X as [|x X]; [done|]. simpl length in Hva.
    assert (1 <= (Z.of_nat (S (length X)) + 4) / 5)%Z; [|lia].
    apply Z.div_le_lower_bound; lia.
  - rewrite <- length_zero_iff_nil. lia.
Qed.

End split_pairs.

Lemma stance_split_rearranges_pairs_witness :
  let e := sample_env (Some 42%Z) one_test in
  let X := Str <$> ["t0";"t1";"t2";"t3";"t4";"t5";"t6";"t7";"t8";"t9"] in
  let Y := [0; 0; 0; 0; 0; 0; 1; 1; 1; 1] in
  let trX := [Str "t1"; Str "t2"; Str "t3"; Str "t4"; Str "t5"; Str "t6"; Str "t7"; Str "t8"] in
  let trY := [0; 0; 0; 0; 0; 1; 1; 1]%Z in
  let vaX := [Str "t9"; Str "t0"] in
  let vaY := [1; 0]%Z in
  (forall s n, rot_permutation s n ≡ₚ seq 0 n) /\
  _stance (files e) (path_div "data" trainfile) None = Ok (X, Y) /\
  stance rot_permutation true e "data" None = Ok ((trX, trY), (vaX, vaY), [Str "u0"]) /\
  zip trX trY ++ zip vaX vaY ≡ₚ zip X (Z.of_nat <$> Y).
Proof.
  assert (_stance (files (sample_env (Some 42%Z) one_test)) (path_div "data" trainfile) None
          = Ok (Str <$> ["t0";"t1";"t2";"t3";"t4";"t5";"t6";"t7";"t8";"t9"],
                [0; 0; 0; 0; 0; 0; 1; 1; 1; 1]))
    as H1 by (vm_compute; reflexivity).
  assert (stance rot_permutation true (sample_env (Some 42%Z) one_test) "data" None
          = Ok (([Str "t1"; Str "t2"; Str "t3"; Str "t4"; Str "t5"; Str "t6"; Str "t7"; Str "t8"],
                 [0; 0; 0; 0; 0; 1; 1; 1]%Z),
                ([Str "t9"; Str "t0"], [1; 0]%Z), [Str "u0"]))
    as H2 by (vm_compute; reflexivity).
  exact (conj rot_permutation_spec (conj H1 (conj H2
    (stance_split_rearranges_pairs rot_permutation true rot_permutation_spec
       _ _ _ _ _ _ _ _ _ _ H1 H2)))).
Defined.

Lemma stance_parts_empty_witness :
  let e := sample_env (Some 42%Z) one_test in
  let X := Str <$> ["t0";"t1";"t2";"t3";"t4";"t5";"t6";"t7";"t8";"t9"] in
  let Y := [0; 0; 0; 0; 0; 0; 1; 1; 1; 1] in
  let trX := [Str "t1"; Str "t2"; Str "t3"; Str "t4"; Str "t5"; Str "t6"; Str "t7"; Str "t8"] in
  let trY := [0; 0; 0; 0; 0; 1; 1; 1]%Z in
  let vaX := [Str "t9"; Str "t0"] in
  let vaY := [1; 0]%Z in
  (forall s n, rot_permutation s n ≡ₚ seq 0 n) /\
  _stance (files e) (path_div "data" trainfile) None = Ok (X, Y) /\
  stance rot_permutation true e "data" None = Ok ((trX, trY), (vaX, vaY), [Str "u0"]) /\
  (X <> [] -> vaX <> []) /\
  (trX = [] <-> length X <= 1).
Proof.
  assert (_stance (files (sample_env (Some 42%Z) one_test)) (path_div "data" trainfile) None
          = Ok (Str <$> ["t0";"t1";"t2";"t3";"t4";"t5";"t6";"t7";"t8";"t9"],
                [0; 0; 0; 0; 0; 0; 1; 1; 1; 1]))
    as H1 by (vm_compute; reflexivity).
  assert (stance rot_permutation true (sample_env (Some 42%Z) one_test) "data" None
          = Ok (([Str "t1"; Str "t2"; Str "t3"; Str "t4"; Str "t5"; Str "t6"; Str "t7"; Str "t8"],
                 [0; 0; 0; 0; 0; 1; 1; 1]%Z),
                ([Str "t9"; Str "t0"], [1; 0]%Z), [Str "u0"]))
    as H2 by (vm_compute; reflexivity).
  exact (conj rot_permutation_spec (conj H1 (conj H2
    (stance_parts_empty rot_permutation true rot_permutation_spec
       _ _ _ _ _ _ _ _ _ _ H1 H2)))).
Defined.

(** ** The cells that print *)

Lemma print_loop_Ok (texts : list cell) (labels : list Z) (k : nat) :
  k + length texts <= length labels ->
  mapM (fun '(i, t) => match labels !! i with
                       | Some y => Ok (t, y)
                       | None => Err IndexError
                       end)
       (imap (fun i t => (k + i, t)) texts)
  = Ok (zip texts (drop k labels)).
Proof.
  revert k. induction texts as [|t texts IH]; intros k Hk; [done|].
  simpl in Hk. simpl imap. rewrite Nat.add_0_r.
  destruct (lookup_lt_is_Some_2 labels k ltac:(lia)) as [y Hy].
  rewrite (drop_S _ _ _ Hy). simpl. rewrite Hy. simpl.
  rewrite (imap_ext _ (fun i t => (S k + i, t))) by (intros; simpl; f_equal; lia).
  rewrite IH by lia. done.
Qed.

Lemma print_loop_Err (texts : list cell) (labels : list Z) (k : nat) :
  k <= length labels < k + length texts ->
  mapM (fun '(i, t) => match labels !! i with
                       | Some y => Ok (t, y)
                       | None => Err IndexError
                       end)
       (imap (fun i t => (k + i, t)) texts)
  = Err IndexError.
Proof.
  revert k. induction texts as [|t texts IH]; intros k Hk; [simpl in Hk; lia|].
  simpl in Hk. simpl imap. rewrite Nat.add_0_r. simpl.
  destruct (labels !! k) as [y|] eqn:Hy; simpl; [|done].
  apply lookup_lt_Some in Hy.
  rewrite (imap_ext _ (fun i t => (S k + i, t))) by (intros; simpl; f_equal; lia).
  rewrite IH by lia. done.
Qed.

Lemma print_first_ten_Ok (trX : list cell) (trY : list Z) :
  10 `min` length trX <= length trY ->
  print_first_ten trX trY = Ok (zip (take 10 trX) trY).
Proof.
  intros H. unfold print_first_ten, enumerate.
  pose proof (print_loop_Ok (take 10 trX) trY 0) as Hloop.
  rewrite drop_0 in Hloop. apply Hloop. rewrite length_take. lia.
Qed.

Lemma print_first_ten_Err (trX : list cell) (trY : list Z) :
  length trY < 10 `min` length trX ->
  print_first_ten trX trY = Err IndexError.
Proof.
  intros H. unfold print_first_ten, enumerate.
  apply (print_loop_Err (take 10 trX) trY 0). rewrite length_take. lia.
Qed.

(** X13. The print loop over the first ten training texts reads the label
    at the position of each text: it prints the first ten texts, or all if
    there are fewer, each with the label at its position, when there are
    that many labels, and raises [IndexError] when there are fewer. *)
Theorem print_first_ten_bounds (trX : list cell) (trY : list Z) :
  (10 `min` length trX <= length trY ->
   print_first_ten trX trY = Ok (zip (take 10 trX) trY)) /\
  (length trY < 10 `min` length trX ->
   print_first_ten trX trY = Err IndexError).
Proof.
  split; [apply print_first_ten_Ok|apply print_first_ten_Err].
Qed.

Lemma print_first_ten_bounds_witness :
  (10 `min` length [Str "a"; Str "b"] <= length [1; 0; 2]%Z /\
   print_first_ten [Str "a"; Str "b"] [1; 0; 2]%Z = Ok [(Str "a", 1%Z); (Str "b", 0%Z)]) /\
  (length [1%Z] < 10 `min` length [Str "a"; Str "b"] /\
   print_first_ten [Str "a"; Str "b"] [1%Z] = Err IndexError).
Proof.
  split.
  - assert (10 `min` length [Str "a"; Str "b"] <= length [1; 0; 2]%Z) as H
      by (vm_compute; lia).
    exact (conj H (proj1 (print_first_ten_bounds [Str "a"; Str "b"] [1; 0; 2]%Z) H)).
  - assert (length [1%Z] < 10 `min` length [Str "a"; Str "b"]) as H
      by (vm_compute; lia).
    exact (conj H (proj2 (print_first_ten_bounds [Str "a"; Str "b"] [1%Z]) H)).
Defined.

Lemma stance_label_length permutation empty_train_raises e data_dir topic tr va te :
  stance permutation empty_train_raises e data_dir topic = Ok (tr, va, te) ->
  length tr.2 = length tr.1.
Proof.
  destruct tr as [trX trY], va as [vaX vaY]. intros H.
  apply stance_Ok_inv in H
    as (X & Y & teY & s & _ & _ & _ & tr_sent & va_sent & Hsplit & -> & _).
  apply train_test_split_Ok_inv in Hsplit as (n_train & n_test & _ & _ & _ & Hidx).
  destruct (_iter_indices _ _ _ _ _) as [ind_train ind_test].
  destruct Hidx as (Ha & _ & Hc & _). simpl.
  rewrite length_fmap, <- (Forall2_length _ _ _ Hc). by apply Forall2_length in Ha.
Qed.

(** X14. After the loading cell the two printing cells raise nothing: the
    three cells in a row fail exactly as the call of [stance] under the
    notebook's seed and directory fails, and otherwise print the first ten
    training texts, each with its own label, and the first five test
    texts. *)
Theorem run_cells_prints permutation empty_train_raises
    (fs : gmap string (gmap string (list cell))) :
  run_cells permutation empty_train_raises fs
  = ('(tr, va, teX) ←
       stance permutation empty_train_raises
         {| seed := Some 3535999445%Z; files := fs |} "./data" None;
     Ok (zip (take 10 tr.1) tr.2, take 5 teX)).
Proof.
  unfold run_cells, notebook_seed, notebook_data_dir.
  destruct (stance _ _ _ _ _) as [[[tr va] teX]|err] eqn:H; [|done]. simpl.
  apply stance_label_length in H. destruct tr as [trX trY]. simpl in *.
  rewrite print_first_ten_Ok by lia. done.
Qed.

(** ** The exceptions of [_stance] *)

Lemma apply_clean_ascii_Err (col : list cell) (err : error) :
  apply_clean_ascii col = Err err -> err = TypeError.
Proof.
  intros H. apply mapM_Err_inv in H as (_ & c & _ & _ & _ & Hc).
  destruct c; congruence.
Qed.

Lemma apply_clean_ascii_not_Str (col : list cell) (c : cell) :
  c ∈ col -> ~ is_Str c -> apply_clean_ascii col = Err TypeError.
Proof.
  intros Hc Hnot. destruct (apply_clean_ascii col) as [cleaned|err] eqn:H.
  - apply apply_clean_ascii_Ok_is_Str in H.
    by eapply Forall_forall in H.
  - by apply apply_clean_ascii_Err in H as ->.
Qed.

(** X15. What [_stance] raises on a file that parses into the frame [df],
    for each piece that the frame lacks and in the order in which the
    pieces are needed: [KeyError] for a missing [Tweet] column, [TypeError]
    for a [Tweet] that is not a string, [KeyError] for a missing [Target]
    column when a topic is given, [AttributeError] for a missing [Stance]
    column; and it raises nothing but these and the [KeyError] of a
    label. *)
Theorem _stance_missing_pieces files path topic df :
  files !! path = Some df ->
  (df !! "Tweet" = None ->
   _stance files path topic = Err (KeyError (Str "Tweet"))) /\
  (forall tweet c, df !! "Tweet" = Some tweet -> c ∈ tweet -> ~ is_Str c ->
   _stance files path topic = Err TypeError) /\
  (forall tweet t, df !! "Tweet" = Some tweet -> Forall is_Str tweet ->
   topic = Some t -> df !! "Target" = None ->
   _stance files path topic = Err (KeyError (Str "Target"))) /\
  (forall tweet, df !! "Tweet" = Some tweet -> Forall is_Str tweet ->
   (forall t, topic = Some t -> is_Some (df !! "Target")) ->
   df !! "Stance" = None ->
   _stance files path topic = Err (AttributeError "Stance")) /\
  (forall err, _stance files path topic = Err err ->
   err = TypeError \/ err = AttributeError "Stance" \/ exists k, err = KeyError k).
Proof.
  intros Hdf. split_and!.
  - intros Htw. unfold _stance, read_csv, getitem. rewrite Hdf. simpl.
    by rewrite Htw.
  - intros tweet c Htw Hc Hnot. unfold _stance, read_csv. rewrite Hdf. simpl.
    assert (getitem df "Tweet" = Ok tweet) as -> by (unfold getitem; by rewrite Htw).
    simpl. by rewrite (apply_clean_ascii_not_Str _ _ Hc Hnot).
  - intros tweet t Htw Hstr -> Htg.
    apply apply_clean_ascii_total in Hstr as [cleaned Hcl].
    unfold _stance, read_csv. rewrite Hdf. simpl.
    assert (getitem df "Tweet" = Ok tweet) as -> by (unfold getitem; by rewrite Htw).
    simpl. rewrite Hcl. simpl.
    unfold getitem, setitem. by rewrite lookup_insert_ne, Htg.
  - intros tweet Htw Hstr Htg Hst.
    apply apply_clean_ascii_total in Hstr as [cleaned Hcl].
    unfold _stance, read_csv. rewrite Hdf. simpl.
    assert (getitem df "Tweet" = Ok tweet) as -> by (unfold getitem; by rewrite Htw).
    simpl. rewrite Hcl. simpl.
    destruct topic as [t|]; simpl.
    + destruct (Htg t eq_refl) as [tg Htg'].
      unfold getitem, setitem. rewrite lookup_insert_ne, Htg' by done. simpl.
      unfold getattr, loc. rewrite !lookup_fmap.
      by rewrite lookup_insert_eq, lookup_insert_ne, Hst.
    + unfold getattr, setitem. by rewrite lookup_insert_eq, lookup_insert_ne, Hst.
  - intros err H. unfold _stance, read_csv in H. rewrite Hdf in H. simpl in H.
    unfold getitem at 1 in H.
    destruct (df !! "Tweet") as [tweet|]; simpl in H; [|injection H as <-; eauto 10].
    destruct (apply_clean_ascii tweet) as [cleaned|err'] eqn:Hcl; simpl in H.
    2: { apply apply_clean_ascii_Err in Hcl as ->. injection H as <-. eauto. }
    assert (forall df0 : gmap string (list cell),
      (X ← getattr df0 "Tweet"; stance_col ← getattr df0 "Stance";
       Y ← mapM class_num stance_col; Ok (X, Y)) = Err err ->
      is_Some (df0 !! "Tweet") ->
      err = AttributeError "Stance" \/ exists k, err = KeyError k) as Htail.
    { intros df0 H0 [X HX]. unfold getattr in H0. rewrite HX in H0. simpl in H0.
      destruct (df0 !! "Stance") as [st|]; simpl in H0; [|injection H0 as <-; by left].
      destruct (mapM class_num st) as [Y|err'] eqn:HY; simpl in H0; [done|].
      injection H0 as <-. right.
      apply mapM_Err_inv in HY as (_ & s & _ & _ & _ & Hs).
      apply class_num_Err_inv in Hs as [-> _]. eauto. }
    destruct topic as [t|]; simpl in H.
    + unfold getitem, setitem in H. rewrite lookup_insert_ne in H by done.
      destruct (df !! "Target") as [tg|]; simpl in H; [|injection H as <-; eauto 10].
      apply Htail in H; [tauto|].
      unfold loc. rewrite lookup_fmap, lookup_insert_eq. by eexists.
    + apply Htail in H; [tauto|].
      unfold setitem. rewrite lookup_insert_eq. by eexists.
Qed.

Lemma _stance_missing_pieces_witness :
  let files := data_files ten_train test_without_stance in
  let path := path_div "data" testfile in
  files !! path = Some test_without_stance /\
  test_without_stance !! "Tweet" = Some [Str "u0"] /\
  Forall is_Str [Str "u0"] /\
  (forall t : string, None = Some t -> is_Some (test_without_stance !! "Target")) /\
  test_without_stance !! "Stance" = None /\
  _stance files path None = Err (AttributeError "Stance").
Proof.
  assert (data_files ten_train test_without_stance !! path_div "data" testfile
          = Some test_without_stance) as H1 by (vm_compute; reflexivity).
  destruct (_stance_missing_pieces (data_files ten_train test_without_stance)
              (path_div "data" testfile) None _ H1) as (_ & _ & _ & Hstance & _).
  assert (test_without_stance !! "Tweet" = Some [Str "u0"]) as H2
    by (vm_compute; reflexivity).
  assert (Forall is_Str [Str "u0"]) as H3 by (repeat constructor; by eexists).
  assert (forall t : string, None = Some t -> is_Some (test_without_stance !! "Target"))
    as H4 by discriminate.
  assert (test_without_stance !! "Stance" = None) as H5 by (vm_compute; reflexivity).
  exact (conj H1 (conj H2 (conj H3 (conj H4 (conj H5 (Hstance _ H2 H3 H4 H5)))))).
Defined.

(** ** A topic that no row has *)

Section no_matching_row.

Variable permutation : Z -> nat -> list nat.
Variable empty_train_raises : bool.
Hypothesis permutation_spec : forall s n, permutation s n ≡ₚ seq 0 n.

Lemma _stance_no_row_of fs path t :
  no_row_of fs path t -> _stance fs path (Some t) = Ok ([], []).
Proof.
  intros (df & tweet & tg & Hdf & Htw & Hstr & Hst & Htg & Hnot).
  by eapply _stance_no_matching_row.
Qed.

(** C4, as the code has it. The loader has no [EmptyDataset] condition.
    When no row of a file has the topic, [_stance] returns two empty
    sequences. When that file is the test file, [stance] returns, with an
    empty test part, whenever the rest of the call goes through. When it is
    the training file, [stance] raises the [ValueError] of the library where
    the library refuses an empty training part (or the seed), and otherwise
    returns empty training and validation parts. *)
Theorem no_matching_row_raises_no_EmptyDataset e data_dir t :
  (forall path, no_row_of (files e) path t ->
     _stance (files e) path (Some t) = Ok ([], [])) /\
  (no_row_of (files e) (path_div data_dir testfile) t ->
   forall X Y s,
     _stance (files e) (path_div data_dir trainfile) (Some t) = Ok (X, Y) ->
     length X = length Y ->
     seed e = Some s -> (0 <= s < 2 ^ 32)%Z ->
     (empty_train_raises = true -> 2 <= length X) ->
     exists tr va,
       stance permutation empty_train_raises e data_dir (Some t) = Ok (tr, va, [])) /\
  (no_row_of (files e) (path_div data_dir trainfile) t ->
   forall teX teY s,
     _stance (files e) (path_div data_dir testfile) (Some t) = Ok (teX, teY) ->
     seed e = Some s ->
     stance permutation empty_train_raises e data_dir (Some t)
     = if empty_train_raises || negb (bool_decide (0 <= s < 2 ^ 32)%Z)
       then Err ValueError
       else Ok (([], []), ([], []), teX)).
Proof.
  split_and!.
  - intros path. apply _stance_no_row_of.
  - intros Hte X Y s HXY Hlen Hseed Hs Hn. apply _stance_no_row_of in Hte.
    unfold stance. rewrite HXY, Hte, Hseed. simpl.
    destruct (train_test_split_fifth_total permutation empty_train_raises
                permutation_spec X Y s Hlen Hs Hn) as [[[[a b] c] d] ->].
    simpl. repeat destruct (append_loop _ _). by eexists _, _.
  - intros Htr teX teY s Hte Hseed. apply _stance_no_row_of in Htr.
    unfold stance. rewrite Htr, Hte, Hseed. simpl.
    unfold train_test_split, _validate_shuffle_split, check_random_state.
    destruct empty_train_raises, (bool_decide (0 <= s < 2 ^ 32)%Z); reflexivity.
Qed.

End no_matching_row.

Lemma no_row_of_other_topic :
  no_row_of (files (sample_env (Some 42%Z) test_other_topic))
            (path_div "data" testfile) "Atheism".
Proof.
  exists test_other_topic, [Str "u0"], [Str "Hillary Clinton"]. split_and!.
  - by vm_compute.
  - by vm_compute.
  - repeat constructor. by eexists.
  - vm_compute. by eexists.
  - by vm_compute.
  - rewrite not_elem_of_cons. split; [discriminate|apply not_elem_of_nil].
Qed.

Lemma no_row_of_mixed_frame :
  no_row_of (files {| seed := Some 42%Z; files := data_files mixed_frame one_test |})
            (path_div "data" trainfile) "Climate Change is a Real Concern".
Proof.
  exists mixed_frame,
    [Str ("caf" +:+ e_acute +:+ " #SemST"); Str "plain"; Str "third"; Str "last"],
    [Str "Atheism"; Str ("Ath" +:+ e_acute +:+ "isme"); Str "atheism"; Str "Atheism"].
  split_and!.
  - by vm_compute.
  - by vm_compute.
  - repeat constructor; by eexists.
  - vm_compute. by eexists.
  - by vm_compute.
  - rewrite !not_elem_of_cons. split_and!; try discriminate. apply not_elem_of_nil.
Qed.

Lemma no_matching_row_raises_no_EmptyDataset_witness :
  let e := sample_env (Some 42%Z) test_other_topic in
  let e' := {| seed := Some 42%Z; files := data_files mixed_frame one_test |} in
  let t' := "Climate Change is a Real Concern" in
  let X := Str <$> ["t0";"t1";"t2";"t3";"t4";"t5";"t6";"t7";"t8";"t9"] in
  let Y := [0; 0; 0; 0; 0; 0; 1; 1; 1; 1] in
  (forall s n, rot_permutation s n ≡ₚ seq 0 n) /\
  (no_row_of (files e) (path_div "data" testfile) "Atheism" /\
   _stance (files e) (path_div "data" testfile) (Some "Atheism") = Ok ([], []) /\
   _stance (files e) (path_div "data" trainfile) (Some "Atheism") = Ok (X, Y) /\
   length X = length Y /\ seed e = Some 42%Z /\ (0 <= 42 < 2 ^ 32)%Z /\
   (true = true -> 2 <= length X) /\
   exists tr va, stance rot_permutation true e "data" (Some "Atheism") = Ok (tr, va, [])) /\
  (no_row_of (files e') (path_div "data" trainfile) t' /\
   _stance (files e') (path_div "data" testfile) (Some t') = Ok ([], []) /\
   seed e' = Some 42%Z /\
   stance rot_permutation true e' "data" (Some t') = Err ValueError /\
   stance rot_permutation false e' "data" (Some t') = Ok (([], []), ([], []), [])).
Proof.
  split; [exact rot_permutation_spec|]. split.
  - destruct (no_matching_row_raises_no_EmptyDataset rot_permutation true
                rot_permutation_spec (sample_env (Some 42%Z) test_other_topic)
                "data" "Atheism") as (Hload & Htest & _).
    assert (_stance (files (sample_env (Some 42%Z) test_other_topic))
              (path_div "data" trainfile) (Some "Atheism")
            = Ok (Str <$> ["t0";"t1";"t2";"t3";"t4";"t5";"t6";"t7";"t8";"t9"],
                  [0; 0; 0; 0; 0; 0; 1; 1; 1; 1])) as H1 by (vm_compute; reflexivity).
    assert (0 <= 42 < 2 ^ 32)%Z as H2 by lia.
    assert (true = true ->
            2 <= length (Str <$> ["t0";"t1";"t2";"t3";"t4";"t5";"t6";"t7";"t8";"t9"]))
      as H3 by (intros _; simpl; lia).
    exact (conj no_row_of_other_topic (conj (Hload _ no_row_of_other_topic)
      (conj H1 (conj eq_refl (conj eq_refl (conj H2 (conj H3
        (Htest no_row_of_other_topic _ _ _ H1 eq_refl eq_refl H2 H3)))))))).
  - assert (_stance (data_files mixed_frame one_test) (path_div "data" testfile)
              (Some "Climate Change is a Real Concern") = Ok ([], []))
      as H1 by (vm_compute; reflexivity).
    split_and!; [exact no_row_of_mixed_frame|exact H1|reflexivity| |].
    + destruct (no_matching_row_raises_no_EmptyDataset rot_permutation true
                  rot_permutation_spec
                  {| seed := Some 42%Z; files := data_files mixed_frame one_test |}
                  "data" "Climate Change is a Real Concern") as (_ & _ & Htrain).
      exact (Htrain no_row_of_mixed_frame _ _ _ H1 eq_refl).
    + destruct (no_matching_row_raises_no_EmptyDataset rot_permutation false
                  rot_permutation_spec
                  {| seed := Some 42%Z; files := data_files mixed_frame one_test |}
                  "data" "Climate Change is a Real Concern") as (_ & _ & Htrain).
      exact (Htrain no_row_of_mixed_frame _ _ _ H1 eq_refl).
Defined.

(** ** The encoding of the labels, run *)

Lemma _stance_label_encoding_witness :
  let files := data_files mixed_frame one_test in
  let files' := data_files maybe_frame one_test in
  let path := path_div "data" trainfile in
  let tweet := [Str ("caf" +:+ e_acute +:+ " #SemST"); Str "plain"; Str "third"; Str "last"] in
  let st := [Str "FAVOR"; Str "AGAINST"; Str "NONE"; Str "UNKNOWN"] in
  (files !! path = Some mixed_frame /\ frame_rows mixed_frame 4 /\
   mixed_frame !! "Tweet" = Some tweet /\ mixed_frame !! "Stance" = Some st /\
   Forall is_Str tweet /\
   Forall (fun i => exists s y, st !! i = Some s /\ label_code s y)
          (kept_rows mixed_frame None 4) /\
   _stance files path None
     = Ok ([Str "caf #SemST"; Str "plain"; Str "third"; Str "last"], [1; 0; 2; 3]) /\
   exists X Y,
     _stance files path None = Ok (X, Y) /\
     Forall2 (fun i y => exists s, st !! i = Some s /\ label_code s y)
             (kept_rows mixed_frame None 4) Y) /\
  (files' !! path = Some maybe_frame /\ frame_rows maybe_frame 2 /\
   maybe_frame !! "Tweet" = Some [Str "a"; Str "b"] /\
   maybe_frame !! "Stance" = Some [Str "FAVOR"; Str "MAYBE"] /\
   Forall is_Str [Str "a"; Str "b"] /\
   kept_rows maybe_frame None 2 = [0] ++ 1 :: [] /\
   (forall y, ~ label_code (Str "MAYBE") y) /\
   _stance files' path None = Err (KeyError (Str "MAYBE"))).
Proof.
  assert (forall t : string, None = Some t -> is_Some (mixed_frame !! "Target")) as Hno
    by discriminate.
  assert (forall t : string, None = Some t -> is_Some (maybe_frame !! "Target")) as Hno'
    by discriminate.
  split.
  - assert (data_files mixed_frame one_test !! path_div "data" trainfile = Some mixed_frame)
      as H1 by (vm_compute; reflexivity).
    assert (frame_rows mixed_frame 4) as H2 by (by apply frame_of_rows).
    assert (mixed_frame !! "Tweet"
            = Some [Str ("caf" +:+ e_acute +:+ " #SemST"); Str "plain"; Str "third"; Str "last"])
      as H3 by (vm_compute; reflexivity).
    assert (mixed_frame !! "Stance"
            = Some [Str "FAVOR"; Str "AGAINST"; Str "NONE"; Str "UNKNOWN"])
      as H4 by (vm_compute; reflexivity).
    assert (Forall is_Str
              [Str ("caf" +:+ e_acute +:+ " #SemST"); Str "plain"; Str "third"; Str "last"])
      as H5 by (repeat constructor; by eexists).
    assert (Forall (fun i => exists s y,
                      [Str "FAVOR"; Str "AGAINST"; Str "NONE"; Str "UNKNOWN"] !! i = Some s
                      /\ label_code s y)
                   (kept_rows mixed_frame None 4)) as H6.
    { repeat constructor; do 2 eexists; (split; [reflexivity|constructor]). }
    destruct (_stance_label_encoding _ _ None _ _ _ _ H1 H2 H3 H4) as [_ Htotal].
    destruct (Htotal H5 Hno) as [Hok _].
    split_and!; [exact H1|exact H2|exact H3|exact H4|exact H5|exact H6| |exact (Hok H6)].
    vm_compute. reflexivity.
  - assert (data_files maybe_frame one_test !! path_div "data" trainfile = Some maybe_frame)
      as H1 by (vm_compute; reflexivity).
    assert (frame_rows maybe_frame 2) as H2 by (by apply frame_of_rows).
    assert (maybe_frame !! "Tweet" = Some [Str "a"; Str "b"]) as H3
      by (vm_compute; reflexivity).
    assert (maybe_frame !! "Stance" = Some [Str "FAVOR"; Str "MAYBE"]) as H4
      by (vm_compute; reflexivity).
    assert (Forall is_Str [Str "a"; Str "b"]) as H5 by (repeat constructor; by eexists).
    assert (kept_rows maybe_frame None 2 = [0] ++ 1 :: []) as H6 by reflexivity.
    assert (forall y, ~ label_code (Str "MAYBE") y) as H7 by (intros y Hy; inversion Hy).
    destruct (_stance_label_encoding _ _ None _ _ _ _ H1 H2 H3 H4) as [_ Htotal].
    destruct (Htotal H5 Hno') as [_ Herr].
    split_and!; [exact H1|exact H2|exact H3|exact H4|exact H5|exact H6|exact H7|].
    apply (Herr [0] 1 [] (Str "MAYBE") H6); [|reflexivity|exact H7].
    repeat constructor. do 2 eexists. split; [reflexivity|constructor].
Defined.

(** C2. An unrecognized [Stance] does not always end the load with the
    exception of the label: beside a [Tweet] field that is not a string the
    load raises the [TypeError] of the cleaning step, and on a row that the
    topic filter removes the value is not looked at and the load returns. *)
Lemma unrecognized_label_without_KeyError :
  let path := path_div "data" trainfile in
  maybe_empty_tweet_frame !! "Stance" = Some [Str "FAVOR"; Str "MAYBE"] /\
  _stance (data_files maybe_empty_tweet_frame one_test) path None = Err TypeError /\
  maybe_other_topic_frame !! "Stance" = Some [Str "FAVOR"; Str "MAYBE"] /\
  _stance (data_files maybe_other_topic_frame one_test) path (Some "Atheism")
    = Ok ([Str "a"], [1]).
Proof. split_and!; by vm_compute. Qed.
